(** * The temperature ETL pipeline: wide-to-long reshape of yearly columns

    A shallow embedding of [building_an_etl_pipeline_using_pyspark.py].
    The script is a straight line of calls on a dataframe engine:

      fillna  ->  na.drop  ->  selectExpr(stack)  ->  withColumn(Year)
              ->  collect, data[-5:]

    The embedding starts at the table that [spark.read.csv] returns: a
    header of named columns, each with the type that the reader inferred for
    it, and the rows.  The text parsing and the schema inference of the
    extract step are the engine's and are not modelled, and neither are the
    engine's columnar writer and reader of the load step.  Each engine
    operation of the transform is a function on tables; an operation that the
    engine can refuse (an unresolved column, generator arguments of different
    types, an invalid cast under ANSI evaluation) returns a [result].  The
    script configures nothing on its session, so whether casts are evaluated
    in ANSI mode is the engine's default, which differs between releases: it
    is the parameter [ansi] throughout, and the theorems hold for both values.

    Cells are either null or hold a value.  Temperatures are carried through
    the pipeline without any arithmetic, so the type of double-precision
    numbers is left abstract, with the test [is_nan] for its not-a-number
    values, which the engine's cleaning operations treat as missing. *)

From Stdlib Require Import ZArith String Ascii List Bool Lia.
From stdpp Require Import base option list gmap strings pretty.

Local Open Scope string_scope.
Local Open Scope Z_scope.

(** ** Results of engine calls *)

Inductive error :=
| UnresolvedColumn (c : string)        (* analysis: no such column *)
| AliasMismatch (given expected : nat) (* analysis: generator aliases *)
| StackRows                            (* analysis: the generator needs a row *)
| TypeMismatch (position : nat)        (* analysis: generator argument types *)
| CastInvalidInput (s : string).       (* ANSI evaluation: malformed number *)

Inductive result (A : Type) :=
| Ok (a : A)
| Err (e : error).
Arguments Ok {A} a.
Arguments Err {A} e.

#[global] Instance result_ret : MRet result := fun A a => Ok a.
#[global] Instance result_bind : MBind result := fun A B f m =>
  match m with Ok a => f a | Err e => Err e end.
#[global] Instance result_fmap : FMap result := fun A B f m =>
  match m with Ok a => Ok (f a) | Err e => Err e end.

(** Evaluate a fallible function on every element, stopping at the first
    error (the engine aborts the job at the first failing row). *)
Fixpoint traverse {A B} (f : A → result B) (l : list A) : result (list B) :=
  match l with
  | [] => Ok []
  | x :: l' => y ← f x; ys ← traverse f l'; Ok (y :: ys)
  end.

(** ** Strings: the engine's [substring] and string-to-int cast *)

Module Sql.

(** [substring(str, pos, len)]: positions are one-based; position 0 is
    the first character and a negative position counts from the end. *)
Definition substring (s : string) (pos len : Z) : string :=
  let n := Z.of_nat (String.length s) in
  let start := if 0 <? pos then pos - 1 else if pos <? 0 then n + pos else 0 in
  let stop := start + len in
  if (stop <=? start) || (n <=? start) then EmptyString
  else
    let lo := Z.max 0 start in
    String.substring (Z.to_nat lo) (Z.to_nat (Z.min stop n - lo)) s.

(** Bytes that the cast skips at both ends: blanks and control codes. *)
Definition is_blank (a : ascii) : bool :=
  let n := nat_of_ascii a in ((n <=? 32) || (n =? 127))%nat.

Fixpoint trim_left (s : string) : string :=
  match s with
  | String a s' => if is_blank a then trim_left s' else s
  | EmptyString => EmptyString
  end.

Fixpoint trim_right (s : string) : string :=
  match s with
  | String a s' =>
      match trim_right s' with
      | EmptyString => if is_blank a then EmptyString else String a EmptyString
      | t => String a t
      end
  | EmptyString => EmptyString
  end.

Definition digit_of (a : ascii) : option Z :=
  let n := Z.of_nat (nat_of_ascii a) in
  if (48 <=? n) && (n <=? 57) then Some (n - 48) else None.

Definition is_digit (a : ascii) : bool :=
  match digit_of a with Some _ => true | None => false end.

Fixpoint all_digits (s : string) : bool :=
  match s with
  | String a s' => is_digit a && all_digits s'
  | EmptyString => true
  end.

(** The integral part: digits are accumulated up to the end of the text
    or, when a decimal point is allowed, up to the first point; the text
    after the point must be digits and is dropped (truncation). *)
Fixpoint integral (allow_decimal : bool) (acc : Z) (s : string) : option Z :=
  match s with
  | EmptyString => Some acc
  | String a s' =>
      if allow_decimal && Ascii.eqb a "." then
        if all_digits s' then Some acc else None
      else
        match digit_of a with
        | Some d => integral allow_decimal (10 * acc + d) s'
        | None => None
        end
  end.

(** String to 32-bit integer: blanks trimmed, an optional sign, digits;
    [None] when the text is not a number or does not fit. *)
Definition to_int (allow_decimal : bool) (s : string) : option Z :=
  match trim_right (trim_left s) with
  | EmptyString => None
  | String a rest as t =>
      let negative := Ascii.eqb a "-" in
      let signed := negative || Ascii.eqb a "+" in
      if signed && (String.length rest =? 0)%nat then None
      else
        match integral allow_decimal 0 (if signed then rest else t) with
        | Some m =>
            if negative then (if m <=? 2147483648 then Some (- m) else None)
            else (if m <=? 2147483647 then Some m else None)
        | None => None
        end
  end.

(** [int(str)] (a cast): with ANSI evaluation a malformed text raises and
    decimal points are not accepted; otherwise the result is null. *)
Definition cast_int (ansi : bool) (s : string) : result (option Z) :=
  match to_int (negb ansi) s with
  | Some n => Ok (Some n)
  | None => if ansi then Err (CastInvalidInput s) else Ok None
  end.

End Sql.

(** ** Column names and column types *)

(** The types that the CSV reader infers for a column (a column without any
    value is read as a string column).  Two decimal types are the same type
    when they have the same precision and scale. *)
Inductive dtype :=
| BooleanType | IntegerType | LongType | DoubleType
| DecimalType (precision scale : nat)
| DateType | TimestampType | StringType.

#[global] Instance dtype_eq_dec : EqDecision dtype.
Proof. solve_decision. Defined.

(** The engine resolves a column name without regard to letter case (its
    default); letters are the ASCII ones. *)
Definition lower (a : ascii) : ascii :=
  let n := nat_of_ascii a in
  if ((65 <=? n) && (n <=? 90))%nat then ascii_of_nat (n + 32) else a.

Fixpoint lowercase (s : string) : string :=
  match s with
  | EmptyString => EmptyString
  | String a s' => String (lower a) (lowercase s')
  end.

Definition same_name (a b : string) : bool :=
  String.eqb (lowercase a) (lowercase b).

(** No two names equal up to letter case.  The CSV reader renames the
    columns of a header until this holds. *)
Fixpoint distinct_names (l : list string) : bool :=
  match l with
  | [] => true
  | a :: l' => forallb (fun b => negb (same_name a b)) l' && distinct_names l'
  end.

(** ** Tables *)

Section Tables.

(** Double-precision numbers: their text form (used only where the engine
    casts a number to a string implicitly) and the test for not-a-number. *)
Context {double : Type} (double_to_string : double → string)
        (is_nan : double → bool).

(** The value of a cell.  Integers serve the integer and the long columns;
    a value of a boolean, decimal, date or timestamp column is kept by its
    text. *)
Inductive value :=
| VInt (n : Z)
| VDouble (d : double)
| VStr (s : string)
| VOther (text : string).

(** The engine's cast of a text to a column type other than string: the
    value it denotes, or null when it denotes none. *)
Context (cast_text : dtype → string → option value).

(** A table: the header, with the type of each column, and the rows.  A row
    maps each column that holds a value to it; a column without an entry is
    null. *)
Record DataFrame := {
  schema : list (string * dtype);
  rows : list (gmap string value)
}.

(** [df.columns] *)
Definition columns (df : DataFrame) : list string := map fst (schema df).

(** The column that a name resolves to, with its type: the column of the
    header whose name equals it up to letter case (the first one, on a header
    that the reader could not have produced because it has several). *)
Definition lookup_column (df : DataFrame) (c : string) : option (string * dtype) :=
  List.find (fun col => same_name (fst col) c) (schema df).

Definition has_column (df : DataFrame) (c : string) : bool :=
  match lookup_column df c with Some _ => true | None => false end.

Definition is_null (r : gmap string value) (c : string) : bool :=
  match r !! c with None => true | Some _ => false end.

(** Store a possibly-null cell. *)
Definition set_cell (c : string) (v : option value) (r : gmap string value)
  : gmap string value :=
  match v with Some x => <[c := x]> r | None => delete c r end.

(** The columns that the names [cs] resolve to, or the first name that
    resolves to none. *)
Fixpoint resolve (df : DataFrame) (cs : list string)
  : result (list (string * dtype)) :=
  match cs with
  | [] => Ok []
  | c :: cs' =>
      match lookup_column df c with
      | Some col => cols ← resolve df cs'; Ok (col :: cols)
      | None => Err (UnresolvedColumn c)
      end
  end.

(** A cell that the cleaning operations take as missing in a column of type
    [ty]: null, or not-a-number in a column of doubles. *)
Definition is_missing (ty : dtype) (cell : option value) : bool :=
  match cell with
  | None => true
  | Some (VDouble d) =>
      match ty with DoubleType => is_nan d | _ => false end
  | Some _ => false
  end.

(** *** [df.fillna({col: v})] with a string replacement

    The named column must exist.  Its missing cells receive the replacement
    cast to the type of the column: the replacement itself in a string
    column, and in a column of another type the value that the text denotes,
    or null when it denotes none.  (Under ANSI evaluation a replacement that
    denotes no value raises when a filled cell is read; the engine evaluates
    lazily and drops columns that nothing reads, and the script reads no
    filled cell after this step, so the cell is left null here in both
    modes.) *)
Definition cast_replacement (ty : dtype) (v : string) : option value :=
  match ty with
  | StringType => Some (VStr v)
  | _ => cast_text ty v
  end.

Definition fill_cell (ty : dtype) (v : string) (cell : option value)
  : option value :=
  if is_missing ty cell then cast_replacement ty v else cell.

Definition fill_row (a : string) (ty : dtype) (v : string)
    (r : gmap string value) : gmap string value :=
  set_cell a (fill_cell ty v (r !! a)) r.

Definition fillna (c v : string) (df : DataFrame) : result DataFrame :=
  match lookup_column df c with
  | Some (a, ty) =>
      Ok {| schema := schema df; rows := map (fill_row a ty v) (rows df) |}
  | None => Err (UnresolvedColumn c)
  end.

(** *** [df.na.drop(subset=..., how=...)]

    [how='any'] asks for every subset column to be present, [how='all']
    for at least one: the call keeps the rows that have at least [thresh]
    cells that are not missing among the subset. *)
Inductive how := HowAny | HowAll.

Definition non_nulls (cols : list (string * dtype)) (r : gmap string value)
  : nat :=
  length (List.filter (fun col => negb (is_missing (snd col) (r !! fst col)))
                      cols).

Definition na_drop (subset : list string) (h : how) (df : DataFrame)
  : result DataFrame :=
  let thresh := match h with HowAny => length subset | HowAll => 1%nat end in
  cols ← resolve df subset;
  Ok {| schema := schema df;
        rows := List.filter
                  (fun r => (thresh <=? non_nulls cols r)%nat)
                  (rows df) |}.

(** *** Expressions of [selectExpr] and [expr]

    String-valued expressions are kept apart from the others, as the
    engine's analysis does by typing: [substring] and the operand of
    [int(...)] are strings. *)

Inductive sexpr :=
| SCol (c : string)                     (* a column read as a string *)
| SLit (s : string)                     (* 'F1961' *)
| Substring (e : sexpr) (pos len : Z).  (* substring(e, pos, len) *)

Inductive expr :=
| Col (c : string)                      (* F1961 *)
| Str (e : sexpr)
| CastInt (e : sexpr).                  (* int(e) *)

(** Analysis: the names of an expression are replaced by the columns they
    resolve to, and the expression gets its type. *)
Fixpoint sresolve (df : DataFrame) (e : sexpr) : result sexpr :=
  match e with
  | SCol c =>
      match lookup_column df c with
      | Some col => Ok (SCol (fst col))
      | None => Err (UnresolvedColumn c)
      end
  | SLit s => Ok (SLit s)
  | Substring e' pos len => e'' ← sresolve df e'; Ok (Substring e'' pos len)
  end.

Definition resolve_expr (df : DataFrame) (e : expr) : result (expr * dtype) :=
  match e with
  | Col c =>
      match lookup_column df c with
      | Some col => Ok (Col (fst col), snd col)
      | None => Err (UnresolvedColumn c)
      end
  | Str e' => e'' ← sresolve df e'; Ok (Str e'', StringType)
  | CastInt e' => e'' ← sresolve df e'; Ok (CastInt e'', IntegerType)
  end.

(** The implicit cast of a value to a string. *)
Definition to_string (v : value) : string :=
  match v with
  | VInt n => pretty n
  | VDouble d => double_to_string d
  | VStr s => s
  | VOther text => text
  end.

(** Evaluation on one row; a null operand gives a null result. *)
Fixpoint seval (r : gmap string value) (e : sexpr) : option string :=
  match e with
  | SCol c => to_string <$> r !! c
  | SLit s => Some s
  | Substring e' pos len => (fun s => Sql.substring s pos len) <$> seval r e'
  end.

Definition eval (ansi : bool) (r : gmap string value) (e : expr)
  : result (option value) :=
  match e with
  | Col c => Ok (r !! c)
  | Str e' => Ok (VStr <$> seval r e')
  | CastInt e' =>
      match seval r e' with
      | None => Ok None
      | Some s =>
          match Sql.cast_int ansi s with
          | Ok n => Ok (VInt <$> n)
          | Err err => Err err
          end
      end
  end.

(** *** The generator [stack(n, e1, ..., ek) as (a1, ..., am)]

    The k expressions are laid out in [n] rows of [ceil(k / n)] fields;
    a field beyond the last expression is null.  The expressions of one
    field must all have the type of the first of them. *)
Definition num_fields (n : nat) (args : list expr) : nat :=
  ((length args + n - 1) / n)%nat.

(** The position of the first expression whose type differs from the type
    of its field. *)
Definition type_mismatch (k : nat) (tys : list dtype) : option nat :=
  List.find (fun i => negb (bool_decide (tys !! i = tys !! (i mod k)%nat)))
            (seq 0 (length tys)).

Fixpoint fields (ansi : bool) (r : gmap string value) (args : list expr)
    (aliases : list string) (i : nat) (acc : gmap string value)
  : result (gmap string value) :=
  match aliases with
  | [] => Ok acc
  | a :: aliases' =>
      v ← match args !! i with Some e => eval ansi r e | None => Ok None end;
      fields ansi r args aliases' (S i) (set_cell a v acc)
  end.

Definition stack (ansi : bool) (n : nat) (args : list expr)
    (aliases : list string) (base r : gmap string value)
  : result (list (gmap string value)) :=
  traverse (fun i => fields ansi r args aliases (i * num_fields n args) base)
           (seq 0 n).

(** The plain columns of a select list, copied from the input row: each is
    named as the select list names it and read from the column that the
    name resolves to. *)
Definition project (sel : list (string * string)) (r : gmap string value)
  : gmap string value :=
  foldr (fun ca acc => set_cell (fst ca) (r !! snd ca) acc) ∅ sel.

(** *** [df.selectExpr(c1, ..., cj, "stack(n, ...) as (a1, ..., am)")]

    Analysis resolves the names, in the order of the select list, then
    checks the aliases and the types of the generator.  Every input row then
    yields the generator's rows, each carrying the plain columns of that
    input row. *)
Definition selectExpr (ansi : bool) (cs : list string) (n : nat)
    (args : list expr) (aliases : list string) (df : DataFrame)
  : result DataFrame :=
  sel ← resolve df cs;
  targs ← traverse (resolve_expr df) args;
  _ ← (if (length aliases =? num_fields n args)%nat then Ok ()
       else Err (AliasMismatch (length aliases) (num_fields n args)));
  _ ← (if (n =? 0)%nat then Err StackRows else Ok ());
  _ ← match type_mismatch (num_fields n args) (map snd targs) with
      | Some i => Err (TypeMismatch i)
      | None => Ok ()
      end;
  blocks ← traverse (fun r => stack ansi n (map fst targs) aliases
                                (project (zip cs (map fst sel)) r) r)
                    (rows df);
  Ok {| schema := zip cs (map snd sel)
                  ++ zip aliases (take (num_fields n args) (map snd targs));
        rows := concat blocks |}.

(** *** [df.withColumn(c, expr(...))]: the new column takes the place of the
    columns of that name (up to letter case), or comes last when there is
    none. *)
Definition withColumn (ansi : bool) (c : string) (e : expr) (df : DataFrame)
  : result DataFrame :=
  et ← resolve_expr df e;
  let replaced := List.filter (fun a => same_name a c) (columns df) in
  rs ← traverse (fun r => v ← eval ansi r (fst et);
                          Ok (set_cell c v (foldr delete r replaced)))
                (rows df);
  Ok {| schema := if has_column df c
                  then map (fun col => if same_name (fst col) c
                                       then (c, snd et) else col) (schema df)
                  else schema df ++ [(c, snd et)];
        rows := rs |}.

(** ** The script *)

(** [temperatre_columns = [col for col in df.columns if col.startswith('F')]] *)
Definition temperatre_columns (df : DataFrame) : list string :=
  List.filter (String.prefix "F") (columns df).

(** [f"F{1961 + i}"] *)
Definition label (i : nat) : string := "F" +:+ pretty (1961 + i)%nat.

(** [",".join([f"'F{1961 + i}', F{1961 + i}" for i in range(62)])] *)
Definition stack_args : list expr :=
  flat_map (fun i => [Str (SLit (label i)); Col (label i)]) (seq 0 62).

(** [int(substring(Year, 2, 4))] *)
Definition year_expr : expr := CastInt (Substring (SCol "Year") 2 4).

Definition identity_columns : list string := ["ObjectId"; "Country"; "ISO3"].

(** Step 3 of the script up to the reshape: the table [df_pivot] as
    [selectExpr] returns it, with the year still a label. *)
Definition reshape (ansi : bool) (df : DataFrame) : result DataFrame :=
  df ← fillna "ISO2" "Unknown" df;
  df ← na_drop (temperatre_columns df) HowAll df;
  selectExpr ansi identity_columns 62 stack_args ["Year"; "Temperature"] df.

(** Step 3 in full, from the loaded table to the final [df_pivot]. *)
Definition transform (ansi : bool) (df : DataFrame) : result DataFrame :=
  df_pivot ← reshape ansi df;
  withColumn ansi "Year" year_expr df_pivot.

(** [data = df_pivot.collect()] *)
Definition collect (df : DataFrame) : list (gmap string value) := rows df.

End Tables.

(** [l[start:]] on a Python list: a negative start counts from the end,
    and a start outside the list is clamped to it. *)
Definition py_slice_from {A : Type} (start : Z) (l : list A) : list A :=
  let n := Z.of_nat (length l) in
  let lo := if start <? 0 then Z.max (n + start) 0 else Z.min start n in
  drop (Z.to_nat lo) l.

(** [last_5_rows = data[-5:]] *)
Definition last_5_rows {double : Type} (data : list (gmap string (@value double)))
  : list (gmap string (@value double)) :=
  py_slice_from (-5) data.

(** ** The labels that the script generates *)

(** The 62 value columns [F1961] .. [F2022]. *)
Definition year_columns : list string := map label (seq 0 62).

(** The specification's pattern for a year label: one letter, then four digits. *)
Definition is_letter (a : ascii) : bool :=
  let n := nat_of_ascii a in
  (((65 <=? n) && (n <=? 90)) || ((97 <=? n) && (n <=? 122)))%nat.

Definition matches_pattern (s : string) : bool :=
  match s with
  | String c (String d1 (String d2 (String d3 (String d4 EmptyString)))) =>
      is_letter c && Sql.is_digit d1 && Sql.is_digit d2 && Sql.is_digit d3
      && Sql.is_digit d4
  | _ => false
  end.

(** The number that a text of decimal digits spells. *)
Definition decimal_value (s : string) : Z :=
  fold_left (fun acc a => 10 * acc + (Z.of_nat (nat_of_ascii a) - 48))
            (list_ascii_of_string s) 0.

(** The year step of the script on one label: [year_expr] evaluated on a
    row whose [Year] cell holds the label. *)
Definition parse_year {double : Type} (double_to_string : double → string)
    (ansi : bool) (lbl : string) : result (option (@value double)) :=
  eval double_to_string ansi {[ "Year" := VStr lbl ]} year_expr.

(** A row has a temperature, in the words of the specification, when one of
    the 62 value columns is not null. *)
Definition has_temperature {double : Type} (r : gmap string (@value double)) : bool :=
  existsb (fun c => negb (is_null r c)) year_columns.

(** ** What the analysis of the script sees in a header *)

(** The column that a name resolves to and its type (the name itself, as a
    string column, where it resolves to none). *)
Definition actual {double : Type} (df : @DataFrame double) (c : string) : string :=
  match lookup_column df c with Some col => fst col | None => c end.

Definition col_type {double : Type} (df : @DataFrame double) (c : string) : dtype :=
  match lookup_column df c with Some col => snd col | None => StringType end.

(** The columns that the transform resolves, in the order in which it
    resolves them: [ISO2] for the fill, then the select list and the
    generator's columns. *)
Definition required_columns : list string :=
  (["ISO2"] ++ identity_columns ++ year_columns)%list.

(** The first of [cs] that resolves to no column of the table. *)
Definition first_missing {double : Type} (df : @DataFrame double) (cs : list string)
  : option string :=
  List.find (fun c => negb (has_column df c)) cs.

(** The types of the generator's arguments, label and column in turn. *)
Definition stack_types {double : Type} (df : @DataFrame double) : list dtype :=
  flat_map (fun i => [StringType; col_type df (label i)]) (seq 0 62).

(** The header of [df_pivot]. *)
Definition out_schema {double : Type} (df : @DataFrame double)
  : list (string * dtype) :=
  [("ObjectId", col_type df "ObjectId"); ("Country", col_type df "Country");
   ("ISO3", col_type df "ISO3"); ("Year", IntegerType);
   ("Temperature", col_type df (label 0))].

(** The shape of the loaded table that the reshape expects: a header as the
    reader makes it, names distinct up to letter case, with the identity
    columns and the 62 value columns; no other column name starts with [F];
    and the 62 value columns have one type. *)
Definition input_schema {double : Type} (df : @DataFrame double) : bool :=
  distinct_names (columns df)
  && forallb (fun c => existsb (String.eqb c) (columns df))
             (["ObjectId"; "Country"; "ISO2"; "ISO3"] ++ year_columns)
  && forallb (fun c => existsb (String.eqb c) year_columns) (temperatre_columns df)
  && forallb (fun c => bool_decide (col_type df c = col_type df (label 0)))
             year_columns.

(** A row has a measured temperature when one of the 62 value columns holds
    a cell that is not missing: a value, and not not-a-number in a column of
    doubles. *)
Definition has_value {double : Type} (is_nan : double → bool)
    (df : @DataFrame double) (r : gmap string (@value double)) : bool :=
  existsb (fun c => negb (is_missing is_nan (col_type df c) (r !! c)))
          year_columns.

(** A row is kept by the drop step when one of the columns whose name starts
    with [F] holds a cell that is not missing. *)
Definition kept {double : Type} (is_nan : double → bool) (df : @DataFrame double)
    (r : gmap string (@value double)) : bool :=
  existsb (fun c => negb (is_missing is_nan (col_type df c) (r !! actual df c)))
          (temperatre_columns df).

(** The header of [df_pivot] when [selectExpr] returns it, the year still a
    label. *)
Definition reshape_schema {double : Type} (df : @DataFrame double)
  : list (string * dtype) :=
  [("ObjectId", col_type df "ObjectId"); ("Country", col_type df "Country");
   ("ISO3", col_type df "ISO3"); ("Year", StringType);
   ("Temperature", col_type df (label 0))].

(** The plain columns of the script's select list, as the table resolves
    them. *)
Definition selection {double : Type} (df : @DataFrame double)
  : list (string * string) :=
  zip identity_columns (map (actual df) identity_columns).

(** The [i]-th row that the generator emits for the input row [r], and the
    same row after the year conversion (shown below to be what the script
    computes). *)
Definition stacked_row {double : Type} (df : @DataFrame double)
    (r : gmap string (@value double)) (i : nat) : gmap string (@value double) :=
  set_cell "Temperature" (r !! actual df (label i))
    (set_cell "Year" (Some (VStr (label i))) (project (selection df) r)).

Definition pivot_row {double : Type} (df : @DataFrame double)
    (r : gmap string (@value double)) (i : nat) : gmap string (@value double) :=
  set_cell "Year" (Some (VInt (Z.of_nat (1961 + i))))
           (delete "Year" (stacked_row df r i)).

(** The rows that one input row contributes to [df_pivot]. *)
Definition block {double : Type} (is_nan : double → bool) (df : @DataFrame double)
    (r : gmap string (@value double)) : list (gmap string (@value double)) :=
  if kept is_nan df r then map (pivot_row df r) (seq 0 62) else [].

(** The year conversion on one row, as [withColumn] applies it. *)
Definition year_step {double : Type} (double_to_string : double → string)
    (ansi : bool) (o : gmap string (@value double))
  : result (gmap string (@value double)) :=
  v ← eval double_to_string ansi o year_expr;
  Ok (set_cell "Year" v (delete "Year" o)).

(** The check that the label of index [i] is parsed to the year [1961 + i]. *)
Definition label_parses (ansi : bool) (i : nat) : bool :=
  match Sql.cast_int ansi (Sql.substring (label i) 2 4) with
  | Ok (Some n) => n =? Z.of_nat (1961 + i)
  | _ => false
  end.

(** ** Sample tables

    The doubles of the samples are whole numbers and one not-a-number.  The
    replacement text of the samples, "Unknown", denotes no value of a type
    other than string. *)

Inductive number := Num (z : Z) | NaN.

Definition number_to_string (x : number) : string :=
  match x with Num z => pretty z | NaN => "NaN" end.

Definition number_is_nan (x : number) : bool :=
  match x with Num _ => false | NaN => true end.

Definition no_text_cast (ty : dtype) (v : string) : option (@value number) := None.

(** The header of the data set: the identity columns and a column of doubles
    for each year. *)
Definition sample_schema : list (string * dtype) :=
  ([("ObjectId", IntegerType); ("Country", StringType);
    ("ISO2", StringType); ("ISO3", StringType)]
   ++ map (fun c => (c, DoubleType)) year_columns)%list.

(** Country A is measured in every year; country P in 1961 and 2022 only;
    country B never, and it has no [ISO2]; country N has a single cell, which
    holds not-a-number. *)
Definition row_A : gmap string (@value number) :=
  list_to_map ([("ObjectId", VInt 1); ("Country", VStr "A"); ("ISO2", VStr "AA");
                ("ISO3", VStr "AAA")]
               ++ map (fun i => (label i, VDouble (Num (Z.of_nat i)))) (seq 0 62))%list.

Definition row_P : gmap string (@value number) :=
  list_to_map [("ObjectId", VInt 2); ("Country", VStr "P"); ("ISO2", VStr "PP");
               ("ISO3", VStr "PPP"); ("F1961", VDouble (Num 12));
               ("F2022", VDouble (Num 15))].

Definition row_B : gmap string (@value number) :=
  list_to_map [("ObjectId", VInt 3); ("Country", VStr "B"); ("ISO3", VStr "BBB")].

Definition row_N : gmap string (@value number) :=
  list_to_map [("ObjectId", VInt 4); ("Country", VStr "N"); ("ISO2", VStr "NN");
               ("ISO3", VStr "NNN"); ("F1961", VDouble NaN)].

Definition sample : @DataFrame number :=
  {| schema := sample_schema; rows := [row_A; row_P; row_B; row_N] |}.

(** The sample with other codes in [ISO2]. *)
Definition recoded : @DataFrame number :=
  {| schema := sample_schema;
     rows := [<["ISO2" := VStr "ZZ"]> row_A; delete "ISO2" row_P;
              <["ISO2" := VStr "BB"]> row_B; row_N] |}.

(** A table with one more column whose name starts with [F]: country C has
    no temperature at all but is flagged. *)
Definition row_C : gmap string (@value number) :=
  list_to_map [("ObjectId", VInt 5); ("Country", VStr "C"); ("ISO3", VStr "CCC");
               ("Flag", VStr "estimated")].

Definition flagged : @DataFrame number :=
  {| schema := (sample_schema ++ [("Flag", StringType)])%list;
     rows := [row_C; row_A] |}.



(** The number of rows of a table that carry a given [ObjectId]. *)
Definition rows_of_object {double : Type} (id : Z) (df : @DataFrame double) : nat :=
  length (List.filter (fun o => match o !! "ObjectId" with
                                | Some (VInt n) => n =? id
                                | _ => false
                                end) (rows df)).

(** ** Facts about lists and results *)

Lemma traverse_ok {A B} (f : A → result B) (g : A → B) (l : list A) :
  (∀ x, x ∈ l → f x = Ok (g x)) → traverse f l = Ok (map g l).
Proof.
  induction l as [|x l IH]; intros Hf; [done|].
  cbn. rewrite (Hf x) by apply list_elem_of_here. cbn.
  rewrite IH; [done|]. intros y Hy. apply Hf. by apply list_elem_of_further.
Qed.

Lemma pairs_lookup {A B} (f g : A → B) (l : list A) (i : nat) :
  flat_map (fun x => [f x; g x]) l !! (i * 2)%nat = f <$> l !! i
  ∧ flat_map (fun x => [f x; g x]) l !! S (i * 2) = g <$> l !! i.
Proof.
  revert i. induction l as [|x l IH]; intros i; [done|].
  destruct i as [|i]; [done|]. cbn. apply IH.
Qed.

Lemma pairs_length {A B} (f g : A → B) (l : list A) :
  length (flat_map (fun x => [f x; g x]) l) = (2 * length l)%nat.
Proof. induction l as [|x l IH]; [done|]. cbn [flat_map app length]. lia. Qed.

Lemma filter_length_existsb {A} (p : A → bool) (l : list A) :
  (1 <=? length (List.filter p l))%nat = existsb p l.
Proof.
  induction l as [|x l IH]; [done|]. cbn. destruct (p x); [done|]. apply IH.
Qed.

Lemma existsb_subset {A} (p : A → bool) (l1 l2 : list A) :
  (∀ x, In x l1 → In x l2) → existsb p l1 = true → existsb p l2 = true.
Proof.
  intros Hsub H. apply existsb_exists in H as (x & Hx & Hp).
  apply existsb_exists. exists x. auto.
Qed.

Lemma existsb_same {A} (p : A → bool) (l1 l2 : list A) :
  (∀ x, In x l1 → In x l2) → (∀ x, In x l2 → In x l1) →
  existsb p l1 = existsb p l2.
Proof.
  intros H12 H21.
  destruct (existsb p l1) eqn:E1, (existsb p l2) eqn:E2; try done.
  - by rewrite (existsb_subset p l1 l2) in E2.
  - by rewrite (existsb_subset p l2 l1) in E1.
Qed.

Lemma existsb_ext_in {A} (p q : A → bool) (l : list A) :
  (∀ x, In x l → p x = q x) → existsb p l = existsb q l.
Proof.
  induction l as [|x l IH]; intros H; [done|].
  cbn. rewrite (H x) by (by left). f_equal. apply IH.
  intros y Hy. apply H. by right.
Qed.

Lemma existsb_fmap {A B} (p : B → bool) (f : A → B) (l : list A) :
  existsb p (map f l) = existsb (fun x => p (f x)) l.
Proof. induction l as [|x l IH]; [done|]. cbn. by rewrite IH. Qed.

Lemma filter_map_comm {A} (p q : A → bool) (f : A → A) (l : list A) :
  (∀ x, p (f x) = q x) →
  List.filter p (map f l) = map f (List.filter q l).
Proof.
  intros H. induction l as [|x l IH]; [done|].
  cbn. rewrite H. destruct (q x); cbn; by rewrite IH.
Qed.

Lemma concat_map_filter {A B} (p : A → bool) (f : A → list B) (l : list A) :
  concat (map f (List.filter p l))
  = concat (map (fun x => if p x then f x else []) l).
Proof.
  induction l as [|x l IH]; [done|].
  cbn. destruct (p x); cbn; by rewrite IH.
Qed.

Lemma Forall2_map_self {A B} (P : A → B → Prop) (f : A → B) (l : list A) :
  (∀ x, P x (f x)) → Forall2 P l (map f l).
Proof. intros H. induction l; constructor; auto. Qed.

Lemma find_all_false {A} (p : A → bool) (l : list A) :
  (∀ x, In x l → p x = false) → List.find p l = None.
Proof.
  induction l as [|x l IH]; intros H; [done|].
  cbn. rewrite H by (by left). apply IH. intros y Hy. apply H. by right.
Qed.

(** ** Facts about names *)

Lemma same_name_refl a : same_name a a = true.
Proof. apply String.eqb_refl. Qed.

Lemma same_name_other a c d :
  same_name a c = true → same_name c d = false → same_name a d = false.
Proof.
  unfold same_name. intros H%String.eqb_eq. by rewrite H.
Qed.

Lemma prefix_F_not_ISO2 c :
  String.prefix "F" c = true → same_name c "ISO2" = false.
Proof.
  destruct c as [|x c]; [done|]. cbn [String.prefix].
  destruct (ascii_dec "F" x) as [<-|]; [|done]. done.
Qed.

Lemma label_prefix i : String.prefix "F" (label i) = true.
Proof. unfold label. generalize (pretty (1961 + i)%nat). by intros []. Qed.

Lemma label_not_ISO2 i : same_name (label i) "ISO2" = false.
Proof. apply prefix_F_not_ISO2, label_prefix. Qed.

Lemma identity_not_ISO2 c :
  In c identity_columns → same_name c "ISO2" = false.
Proof. intros [<-|[<-|[<-|[]]]]; reflexivity. Qed.

Lemma In_year_columns c : In c year_columns ↔ ∃ i, (i < 62)%nat ∧ c = label i.
Proof.
  unfold year_columns. rewrite in_map_iff. split.
  - intros (i & <- & Hi). apply in_seq in Hi. exists i. split; [lia | done].
  - intros (i & Hi & ->). exists i. split; [done | apply in_seq; lia].
Qed.

(** Every generated label is parsed to its year, in both cast modes. *)
Lemma label_parses_all ansi : forallb (label_parses ansi) (seq 0 62) = true.
Proof. destruct ansi; vm_compute; reflexivity. Qed.

Lemma cast_label ansi i :
  (i < 62)%nat →
  Sql.cast_int ansi (Sql.substring (label i) 2 4) = Ok (Some (Z.of_nat (1961 + i))).
Proof.
  intros Hi. pose proof (label_parses_all ansi) as H.
  rewrite forallb_forall in H. specialize (H i).
  unfold label_parses in H.
  destruct (Sql.cast_int ansi (Sql.substring (label i) 2 4)) as [[n|]|e].
  - f_equal. f_equal. apply Z.eqb_eq. apply H. apply in_seq. lia.
  - discriminate H. apply in_seq. lia.
  - discriminate H. apply in_seq. lia.
Qed.

Lemma labels_match_pattern :
  forallb matches_pattern year_columns = true.
Proof. vm_compute. reflexivity. Qed.

(** ** Facts about tables *)

Section TableFacts.

Context {double : Type} (double_to_string : double → string)
        (is_nan : double → bool)
        (cast_text : dtype → string → option (@value double)).

Implicit Types (r o : gmap string (@value double)) (df : @DataFrame double).

Lemma lookup_set_cell c v r c' :
  set_cell c v r !! c' = if decide (c = c') then v else r !! c'.
Proof.
  destruct v as [x|]; cbn; case_decide; subst.
  - apply lookup_insert_eq.
  - by apply lookup_insert_ne.
  - apply lookup_delete_eq.
  - by apply lookup_delete_ne.
Qed.

Lemma lookup_fill_row a ty v r c :
  fill_row is_nan cast_text a ty v r !! c
  = if decide (a = c) then fill_cell is_nan cast_text ty v (r !! a) else r !! c.
Proof. unfold fill_row. apply lookup_set_cell. Qed.

Lemma lookup_column_Some df c col :
  lookup_column df c = Some col →
  In col (schema df) ∧ same_name (fst col) c = true.
Proof. unfold lookup_column. apply find_some. Qed.

Lemma has_column_member df c : In c (columns df) → has_column df c = true.
Proof.
  unfold has_column, lookup_column, columns. intros (col & <- & Hin)%in_map_iff.
  destruct (List.find _ (schema df)) eqn:Hf; [done|].
  apply (find_none _ _ Hf) in Hin. by rewrite same_name_refl in Hin.
Qed.

Lemma actual_same_name df c : same_name (actual df c) c = true.
Proof.
  unfold actual. destruct (lookup_column df c) as [col|] eqn:H.
  - by apply lookup_column_Some in H as [_ H].
  - apply same_name_refl.
Qed.

(** A column that a name other than [ISO2] resolves to is not the column
    that [ISO2] resolves to. *)
Lemma actual_not_ISO2 df c a :
  same_name a "ISO2" = true → same_name c "ISO2" = false → actual df c ≠ a.
Proof.
  intros Ha Hc <-.
  rewrite (same_name_other _ c "ISO2" (actual_same_name df c) Hc) in Ha.
  discriminate Ha.
Qed.

(** On a header of names distinct up to letter case, a name of the header
    resolves to its own column. *)
Lemma lookup_exact df c :
  distinct_names (columns df) = true → In c (columns df) →
  ∃ ty, lookup_column df c = Some (c, ty).
Proof.
  unfold lookup_column, columns.
  induction (schema df) as [|[a t] l IH]; [done|].
  cbn [map distinct_names List.find fst].
  intros [Hhead Hrest]%andb_true_iff [<-|Hin].
  - rewrite same_name_refl. by exists t.
  - rewrite forallb_forall in Hhead. specialize (Hhead c Hin).
    apply negb_true_iff in Hhead. rewrite Hhead. by apply IH.
Qed.

Lemma first_missing_app df cs cs' :
  first_missing df (cs ++ cs')
  = match first_missing df cs with
    | Some c => Some c
    | None => first_missing df cs'
    end.
Proof.
  unfold first_missing. induction cs as [|c cs IH]; [done|].
  cbn [app List.find]. by destruct (negb (has_column df c)).
Qed.

Lemma first_missing_None df cs :
  first_missing df cs = None ↔ ∀ c, In c cs → has_column df c = true.
Proof.
  unfold first_missing. split.
  - intros H c Hc. pose proof (find_none _ _ H c Hc) as Hn.
    by apply negb_false_iff in Hn.
  - intros H. apply find_all_false. intros c Hc. by rewrite H.
Qed.


Lemma resolve_first_missing df cs :
  resolve df cs
  = match first_missing df cs with
    | Some c => Err (UnresolvedColumn c)
    | None => Ok (map (fun c => (actual df c, col_type df c)) cs)
    end.
Proof.
  unfold first_missing. induction cs as [|c cs IH]; [done|].
  cbn [resolve List.find map]. unfold has_column, actual, col_type.
  destruct (lookup_column df c) as [[a t]|]; [|done].
  cbn [negb]. rewrite IH. by destruct (List.find _ cs).
Qed.

Lemma resolve_expr_stack_args df (l : list nat) :
  traverse (resolve_expr df)
    (flat_map (fun i => [Str (SLit (label i)); Col (label i)]) l)
  = match first_missing df (map label l) with
    | Some c => Err (UnresolvedColumn c)
    | None =>
        Ok (flat_map (fun i => [(Str (SLit (label i)), StringType);
                                (Col (actual df (label i)), col_type df (label i))])
                     l)
    end.
Proof.
  unfold first_missing. induction l as [|i l IH]; [done|].
  cbn [flat_map app traverse resolve_expr sresolve map List.find].
  cbn [mbind result_bind]. unfold has_column, actual, col_type.
  destruct (lookup_column df (label i)) as [[a t]|]; [|done].
  cbn [negb mbind result_bind fst snd]. rewrite IH.
  by destruct (List.find _ (map label l)).
Qed.

End TableFacts.

(** ** Facts about the script *)

Section ScriptFacts.

Context {double : Type} (double_to_string : double → string)
        (is_nan : double → bool)
        (cast_text : dtype → string → option (@value double)).

Implicit Types (r o : gmap string (@value double)) (df : @DataFrame double).

(** The generator's arguments after analysis. *)
Lemma fst_pairs {A B C} (f g : A → B * C) (l : list A) :
  map fst (flat_map (fun x => [f x; g x]) l)
  = flat_map (fun x => [fst (f x); fst (g x)]) l.
Proof. induction l as [|x l IH]; [done|]. cbn. by rewrite IH. Qed.

Lemma snd_pairs {A B C} (f g : A → B * C) (l : list A) :
  map snd (flat_map (fun x => [f x; g x]) l)
  = flat_map (fun x => [snd (f x); snd (g x)]) l.
Proof. induction l as [|x l IH]; [done|]. cbn. by rewrite IH. Qed.

Lemma num_fields_pairs (f g : nat → expr) :
  num_fields 62 (flat_map (fun i => [f i; g i]) (seq 0 62)) = 2%nat.
Proof. unfold num_fields. by rewrite pairs_length, length_seq. Qed.

(** *** The generator on one row *)

Lemma stack_row ansi df base r :
  stack double_to_string ansi 62
    (flat_map (fun i => [Str (SLit (label i)); Col (actual df (label i))])
              (seq 0 62))
    ["Year"; "Temperature"] base r
  = Ok (map (fun i => set_cell "Temperature" (r !! actual df (label i))
                        (set_cell "Year" (Some (VStr (label i))) base))
            (seq 0 62)).
Proof.
  unfold stack. apply traverse_ok. intros i Hi.
  apply list_elem_of_In, in_seq in Hi.
  rewrite num_fields_pairs.
  destruct (pairs_lookup (fun i => Str (SLit (label i)))
              (fun i => Col (actual df (label i))) (seq 0 62) i) as [H0 H1].
  rewrite lookup_seq_lt in H0, H1 by lia.
  cbn [fields]. rewrite H0, H1. reflexivity.
Qed.

Lemma selectExpr_stack ansi df :
  selectExpr double_to_string ansi identity_columns 62 stack_args
    ["Year"; "Temperature"] df
  = match first_missing df (identity_columns ++ year_columns) with
    | Some c => Err (UnresolvedColumn c)
    | None =>
        match type_mismatch 2 (stack_types df) with
        | Some i => Err (TypeMismatch i)
        | None =>
            Ok {| schema := reshape_schema df;
                  rows := concat (map (fun r => map (stacked_row df r) (seq 0 62))
                                      (rows df)) |}
        end
    end.
Proof.
  unfold selectExpr, stack_args, year_columns.
  rewrite first_missing_app, resolve_first_missing, resolve_expr_stack_args.
  destruct (first_missing df identity_columns) as [c|]; [done|].
  cbn [mbind result_bind].
  destruct (first_missing df (map label (seq 0 62))) as [c|]; [done|].
  cbn [mbind result_bind].
  rewrite (num_fields_pairs (fun i => Str (SLit (label i))) (fun i => Col (label i))).
  cbn [length Nat.eqb mbind result_bind].
  rewrite snd_pairs, fst_pairs. cbn [fst snd].
  change (flat_map (fun x => [StringType; col_type df (label x)]) (seq 0 62))
    with (stack_types df).
  destruct (type_mismatch 2 (stack_types df)) as [i|]; [done|].
  cbn [mbind result_bind].
  rewrite (traverse_ok _ (fun r => map (stacked_row df r) (seq 0 62))).
  - cbn [mbind result_bind]. reflexivity.
  - intros r _. rewrite stack_row. reflexivity.
Qed.

(** *** The year conversion on a generated row *)

Lemma lookup_stacked_row_Year df r i :
  stacked_row df r i !! "Year" = Some (VStr (label i)).
Proof.
  unfold stacked_row. rewrite !lookup_set_cell.
  rewrite decide_False by done. by rewrite decide_True.
Qed.

Lemma year_step_stacked ansi df r i :
  (i < 62)%nat →
  year_step double_to_string ansi (stacked_row df r i) = Ok (pivot_row df r i).
Proof.
  intros Hi. unfold year_step, year_expr, eval, seval.
  rewrite lookup_stacked_row_Year. cbn [fmap option_fmap option_map to_string].
  rewrite cast_label by done. reflexivity.
Qed.

Lemma traverse_year_step ansi df (l : list (gmap string (@value double))) :
  traverse (year_step double_to_string ansi)
    (concat (map (fun r => map (stacked_row df r) (seq 0 62)) l))
  = Ok (concat (map (fun r => map (pivot_row df r) (seq 0 62)) l)).
Proof.
  induction l as [|r l IH]; [done|].
  cbn [map concat].
  generalize (concat (map (fun r => map (stacked_row df r) (seq 0 62)) l))
             (concat (map (fun r => map (pivot_row df r) (seq 0 62)) l)) IH.
  intros tl tl' Htl.
  assert (∀ ks, (∀ i, In i ks → (i < 62)%nat) →
            traverse (year_step double_to_string ansi)
              (map (stacked_row df r) ks ++ tl)%list
            = Ok (map (pivot_row df r) ks ++ tl')%list) as Hblock.
  { induction ks as [|i ks IHks]; intros Hlt; [done|].
    cbn [map app traverse]. rewrite year_step_stacked by (apply Hlt; by left).
    cbn [mbind result_bind]. rewrite IHks; [done|].
    intros j Hj. apply Hlt. by right. }
  apply Hblock. intros i Hi%in_seq. lia.
Qed.

Lemma withColumn_year ansi df (l : list (gmap string (@value double))) :
  withColumn double_to_string ansi "Year" year_expr
    {| schema := reshape_schema df;
       rows := concat (map (fun r => map (stacked_row df r) (seq 0 62)) l) |}
  = Ok {| schema := out_schema df;
          rows := concat (map (fun r => map (pivot_row df r) (seq 0 62)) l) |}.
Proof.
  unfold withColumn.
  change (resolve_expr _ year_expr) with (Ok (year_expr, IntegerType)
                                          : result (expr * dtype)).
  cbn [mbind result_bind fst snd].
  change (List.filter _ (columns _)) with ["Year"].
  change (has_column _ "Year") with true.
  cbn [foldr rows].
  pose proof (traverse_year_step ansi df l) as H.
  unfold year_step in H. rewrite H. reflexivity.
Qed.

(** *** The cleaning steps do not touch what the reshape reads *)

Lemma temperature_column_not_ISO2 df c a :
  same_name a "ISO2" = true → In c (temperatre_columns df) → actual df c ≠ a.
Proof.
  intros Ha [_ Hp]%filter_In. apply actual_not_ISO2; [done|].
  by apply prefix_F_not_ISO2.
Qed.

Lemma kept_fill_row df a ty v r :
  same_name a "ISO2" = true →
  kept is_nan df (fill_row is_nan cast_text a ty v r) = kept is_nan df r.
Proof.
  intros Ha. unfold kept. apply existsb_ext_in. intros c Hc.
  rewrite lookup_fill_row, decide_False; [done|].
  intros H. by apply (temperature_column_not_ISO2 df c a).
Qed.

Lemma project_selection df r c :
  project (selection df) r !! c
  = if decide (c ∈ identity_columns) then r !! actual df c else None.
Proof.
  unfold selection, identity_columns, project. cbn [map zip zip_with foldr fst snd].
  rewrite !lookup_set_cell, lookup_empty.
  destruct (decide ("ObjectId" = c)) as [<-|H1].
  { rewrite decide_True; [done | apply list_elem_of_here]. }
  destruct (decide ("Country" = c)) as [<-|H2].
  { rewrite decide_True; [done|].
    apply list_elem_of_further, list_elem_of_here. }
  destruct (decide ("ISO3" = c)) as [<-|H3].
  { rewrite decide_True; [done|].
    do 2 apply list_elem_of_further. apply list_elem_of_here. }
  rewrite decide_False; [done|]. intros Hin.
  repeat (apply elem_of_cons in Hin as [Hin|Hin]; [congruence|]).
  by apply not_elem_of_nil in Hin.
Qed.

Lemma stacked_row_fill df a ty v r i :
  same_name a "ISO2" = true →
  stacked_row df (fill_row is_nan cast_text a ty v r) i = stacked_row df r i.
Proof.
  intros Ha. unfold stacked_row.
  rewrite lookup_fill_row, decide_False
    by (intros H; by apply (actual_not_ISO2 df (label i) a Ha (label_not_ISO2 i))).
  f_equal. f_equal. apply map_eq. intros c. rewrite !project_selection.
  case_decide as Hc; [|done].
  rewrite lookup_fill_row, decide_False; [done|].
  intros H. apply (actual_not_ISO2 df c a Ha); [|done].
  apply identity_not_ISO2. by apply list_elem_of_In.
Qed.

Lemma resolve_temperatre_columns df (df' : @DataFrame double) :
  schema df' = schema df →
  resolve df' (temperatre_columns df)
  = Ok (map (fun c => (actual df c, col_type df c)) (temperatre_columns df)).
Proof.
  intros Hs. rewrite resolve_first_missing.
  assert (first_missing df' (temperatre_columns df) = None) as ->.
  { apply first_missing_None. intros c [Hc _]%filter_In.
    apply has_column_member. unfold columns. by rewrite Hs. }
  unfold actual, col_type, lookup_column. by rewrite Hs.
Qed.

Lemma survives_kept df r :
  (1 <=? non_nulls is_nan
           (map (fun c => (actual df c, col_type df c)) (temperatre_columns df))
           r)%nat
  = kept is_nan df r.
Proof.
  unfold non_nulls, kept. rewrite filter_length_existsb.
  apply (existsb_fmap
           (fun col => negb (is_missing is_nan (snd col) (r !! fst col)))
           (fun c => (actual df c, col_type df c))).
Qed.

(** *** The reshape and the transform in closed form, on any table *)

Lemma reshape_any ansi df :
  reshape double_to_string is_nan cast_text ansi df
  = match first_missing df required_columns with
    | Some c => Err (UnresolvedColumn c)
    | None =>
        match type_mismatch 2 (stack_types df) with
        | Some i => Err (TypeMismatch i)
        | None =>
            Ok {| schema := reshape_schema df;
                  rows := concat (map (fun r => map (stacked_row df r) (seq 0 62))
                                      (List.filter (kept is_nan df) (rows df))) |}
        end
    end.
Proof.
  unfold reshape, fillna, required_columns.
  rewrite first_missing_app.
  unfold first_missing at 1. cbn [List.find]. unfold has_column at 1.
  destruct (lookup_column df "ISO2") as [[a ty]|] eqn:Hiso; [|done].
  cbn [negb mbind result_bind].
  apply lookup_column_Some in Hiso as [_ Ha]. cbn [fst] in Ha.
  unfold na_drop.
  change (temperatre_columns _) with (temperatre_columns df).
  rewrite resolve_temperatre_columns by done.
  cbn [mbind result_bind]. rewrite selectExpr_stack.
  change (first_missing _ (identity_columns ++ year_columns))
    with (first_missing df (identity_columns ++ year_columns)).
  destruct (first_missing df (identity_columns ++ year_columns)) as [c|]; [done|].
  change (stack_types _) with (stack_types df).
  destruct (type_mismatch 2 (stack_types df)) as [i|]; [done|].
  cbn [mbind result_bind rows].
  change (reshape_schema _) with (reshape_schema df).
  rewrite (filter_map_comm _ (kept is_nan df))
    by (intros r; rewrite survives_kept; by apply kept_fill_row).
  rewrite map_map.
  rewrite (map_ext
             (fun r => map (stacked_row _ (fill_row is_nan cast_text a ty
                                             "Unknown" r))
                           (seq 0 62))
             (fun r => map (stacked_row df r) (seq 0 62)))
    by (intros r; apply map_ext; intros i;
        exact (stacked_row_fill df a ty "Unknown" r i Ha)).
  reflexivity.
Qed.

Lemma transform_any ansi df :
  transform double_to_string is_nan cast_text ansi df
  = match first_missing df required_columns with
    | Some c => Err (UnresolvedColumn c)
    | None =>
        match type_mismatch 2 (stack_types df) with
        | Some i => Err (TypeMismatch i)
        | None =>
            Ok {| schema := out_schema df;
                  rows := concat (map (block is_nan df) (rows df)) |}
        end
    end.
Proof.
  unfold transform. rewrite reshape_any.
  destruct (first_missing df required_columns) as [c|]; [done|].
  destruct (type_mismatch 2 (stack_types df)) as [i|]; [done|].
  cbn [mbind result_bind]. rewrite withColumn_year. f_equal. f_equal.
  unfold block.
  apply (concat_map_filter (kept is_nan df)
           (fun r => map (pivot_row df r) (seq 0 62))).
Qed.

End ScriptFacts.

(** ** The transform on a table of the expected schema *)

Section ReshapeFacts.

Context {double : Type} (double_to_string : double → string)
        (is_nan : double → bool)
        (cast_text : dtype → string → option (@value double)).

Implicit Types (r o : gmap string (@value double)) (df : @DataFrame double).

Lemma schema_distinct df :
  input_schema df = true → distinct_names (columns df) = true.
Proof.
  unfold input_schema. by intros [[[H _]%andb_true_iff _]%andb_true_iff _]%andb_true_iff.
Qed.

Lemma schema_member df c :
  input_schema df = true →
  In c (["ObjectId"; "Country"; "ISO2"; "ISO3"] ++ year_columns)%list →
  In c (columns df).
Proof.
  unfold input_schema.
  intros [[[_ H]%andb_true_iff _]%andb_true_iff _]%andb_true_iff Hc.
  rewrite forallb_forall in H.
  apply H, existsb_exists in Hc as (c' & Hc' & Heq).
  apply String.eqb_eq in Heq. by subst.
Qed.

Lemma schema_lookup df c :
  input_schema df = true →
  In c (["ObjectId"; "Country"; "ISO2"; "ISO3"] ++ year_columns)%list →
  ∃ ty, lookup_column df c = Some (c, ty).
Proof.
  intros Hs Hc. apply lookup_exact; [by apply schema_distinct|].
  by apply schema_member.
Qed.

Lemma schema_actual df c :
  input_schema df = true →
  In c (["ObjectId"; "Country"; "ISO2"; "ISO3"] ++ year_columns)%list →
  actual df c = c ∧ has_column df c = true.
Proof.
  intros Hs Hc. destruct (schema_lookup df c Hs Hc) as [ty H].
  unfold actual, has_column. by rewrite H.
Qed.

Lemma schema_actual_label df i :
  input_schema df = true → (i < 62)%nat → actual df (label i) = label i.
Proof.
  intros Hs Hi. apply schema_actual; [done|].
  apply in_or_app. right. apply In_year_columns. eauto.
Qed.

Lemma schema_actual_identity df c :
  input_schema df = true → c ∈ identity_columns → actual df c = c.
Proof.
  intros Hs Hc. apply schema_actual; [done|].
  unfold identity_columns in Hc.
  repeat (apply elem_of_cons in Hc as [->|Hc]; [cbn; tauto|]).
  by apply not_elem_of_nil in Hc.
Qed.

Lemma schema_first_missing df :
  input_schema df = true → first_missing df required_columns = None.
Proof.
  intros Hs. apply first_missing_None. intros c Hc.
  apply schema_actual; [done|].
  unfold required_columns, identity_columns in Hc.
  apply in_app_or in Hc as [Hc|Hc]; [cbn in *; tauto|].
  apply in_app_or in Hc as [Hc|Hc]; [cbn in *; tauto|].
  apply in_or_app. by right.
Qed.

(** Under the expected schema the columns that start with [F] are the 62
    value columns. *)
Lemma schema_temperature_columns df c :
  input_schema df = true →
  In c (temperatre_columns df) ↔ In c year_columns.
Proof.
  intros Hs. split.
  - intros Hc. unfold input_schema in Hs.
    apply andb_true_iff in Hs as [[_ H]%andb_true_iff _].
    rewrite forallb_forall in H.
    apply H, existsb_exists in Hc as (c' & Hc' & Heq).
    apply String.eqb_eq in Heq. by subst.
  - intros Hc. unfold temperatre_columns. apply filter_In. split.
    + apply schema_member; [done|]. apply in_or_app. by right.
    + apply In_year_columns in Hc as (i & _ & ->). apply label_prefix.
Qed.

Lemma schema_types df i :
  input_schema df = true → (i < 62)%nat →
  col_type df (label i) = col_type df (label 0).
Proof.
  unfold input_schema. intros [_ H]%andb_true_iff Hi.
  rewrite forallb_forall in H.
  specialize (H (label i)). apply bool_decide_eq_true in H; [done|].
  apply In_year_columns. eauto.
Qed.

(** The generator's type check passes when the value columns have one
    type. *)
Lemma stack_types_agree df :
  (∀ i, (i < 62)%nat → col_type df (label i) = col_type df (label 0)) →
  type_mismatch 2 (stack_types df) = None.
Proof.
  intros Hty. unfold type_mismatch. apply find_all_false.
  intros pos Hpos%in_seq. apply negb_false_iff, bool_decide_eq_true_2.
  unfold stack_types in *. rewrite pairs_length, length_seq in Hpos.
  pose proof (Nat.div_mod_eq pos 2) as Hdiv.
  pose proof (Nat.mod_upper_bound pos 2) as Hmod.
  generalize dependent (pos / 2)%nat. generalize dependent (pos mod 2)%nat.
  intros m Hmod q Hdiv.
  destruct (pairs_lookup (fun _ : nat => StringType)
              (fun i => col_type df (label i)) (seq 0 62) q) as [H0 H1].
  destruct (pairs_lookup (fun _ : nat => StringType)
              (fun i => col_type df (label i)) (seq 0 62) 0) as [Z0 Z1].
  rewrite lookup_seq_lt in H0, H1, Z0, Z1 by lia.
  change (0 * 2)%nat with 0%nat in Z0, Z1.
  destruct m as [|[|k]]; [| |lia].
  - replace pos with (q * 2)%nat by lia. by rewrite H0, Z0.
  - replace pos with (S (q * 2)) by lia. rewrite H1, Z1.
    cbn. f_equal. apply Hty. lia.
Qed.

Lemma schema_kept df r :
  input_schema df = true → kept is_nan df r = has_value is_nan df r.
Proof.
  intros Hs. unfold kept, has_value.
  rewrite (existsb_same _ (temperatre_columns df) year_columns)
    by (intros c; by apply schema_temperature_columns).
  apply existsb_ext_in. intros c (i & Hi & ->)%In_year_columns.
  by rewrite schema_actual_label.
Qed.

(** The final [df_pivot], for a table of the expected schema: the blocks
    of the input rows, one after the other. *)
Lemma transform_rows ansi df :
  input_schema df = true →
  transform double_to_string is_nan cast_text ansi df
  = Ok {| schema := out_schema df;
          rows := concat (map (block is_nan df) (rows df)) |}.
Proof.
  intros Hs. rewrite transform_any, schema_first_missing by done.
  rewrite stack_types_agree; [done|]. intros i Hi. by apply schema_types.
Qed.

(** *** What a row of a block holds *)

Lemma lookup_pivot_row_Year df r i :
  pivot_row df r i !! "Year" = Some (VInt (Z.of_nat (1961 + i))).
Proof. unfold pivot_row. rewrite lookup_set_cell. by rewrite decide_True. Qed.

Lemma lookup_pivot_row_other df r i c :
  c ≠ "Year" → pivot_row df r i !! c = stacked_row df r i !! c.
Proof.
  intros Hc. unfold pivot_row. rewrite lookup_set_cell, decide_False by done.
  by apply lookup_delete_ne.
Qed.

Lemma lookup_pivot_row_Temperature df r i :
  pivot_row df r i !! "Temperature" = r !! actual df (label i).
Proof.
  rewrite lookup_pivot_row_other by done.
  unfold stacked_row. rewrite lookup_set_cell. by rewrite decide_True.
Qed.

Lemma lookup_pivot_row_plain df r i c :
  c ≠ "Year" → c ≠ "Temperature" →
  pivot_row df r i !! c
  = if decide (c ∈ identity_columns) then r !! actual df c else None.
Proof.
  intros H1 H2. rewrite lookup_pivot_row_other by done.
  unfold stacked_row. rewrite !lookup_set_cell, !decide_False by done.
  apply project_selection.
Qed.

Lemma lookup_pivot_row_identity df r i c :
  c ∈ identity_columns → pivot_row df r i !! c = r !! actual df c.
Proof.
  intros Hc. rewrite lookup_pivot_row_plain.
  - by rewrite decide_True.
  - intros ->. unfold identity_columns in Hc.
    repeat (apply elem_of_cons in Hc as [Hc|Hc]; [discriminate Hc|]).
    by apply not_elem_of_nil in Hc.
  - intros ->. unfold identity_columns in Hc.
    repeat (apply elem_of_cons in Hc as [Hc|Hc]; [discriminate Hc|]).
    by apply not_elem_of_nil in Hc.
Qed.

Lemma block_length df r :
  length (block is_nan df r) = if kept is_nan df r then 62%nat else 0%nat.
Proof.
  unfold block. destruct (kept is_nan df r); [|done].
  by rewrite length_map, length_seq.
Qed.

Lemma elem_of_block df r o :
  o ∈ block is_nan df r →
  kept is_nan df r = true ∧ ∃ i, (i < 62)%nat ∧ o = pivot_row df r i.
Proof.
  unfold block. destruct (kept is_nan df r); [|by intros ?%not_elem_of_nil].
  intros (i & Ho & Hi)%list_elem_of_In%in_map_iff. apply in_seq in Hi.
  split; [done|]. exists i. split; [lia | done].
Qed.

Lemma block_lookup df r i :
  kept is_nan df r = true → (i < 62)%nat →
  block is_nan df r !! i = Some (pivot_row df r i).
Proof.
  intros Hr Hi. unfold block. rewrite Hr.
  rewrite list_lookup_fmap, lookup_seq_lt by done. done.
Qed.

Lemma concat_blocks_length df (l : list (gmap string (@value double))) :
  length (concat (map (block is_nan df) l))
  = (62 * length (List.filter (kept is_nan df) l))%nat.
Proof.
  induction l as [|r l IH]; [done|].
  cbn [map concat List.filter]. rewrite length_app, IH, block_length.
  destruct (kept is_nan df r); cbn [length]; lia.
Qed.

Lemma elem_of_concat_blocks df (l : list (gmap string (@value double))) o :
  o ∈ concat (map (block is_nan df) l) → ∃ r, r ∈ l ∧ o ∈ block is_nan df r.
Proof.
  intros (b & Hb & Ho)%list_elem_of_In%in_concat.
  apply in_map_iff in Hb as (r & <- & Hr).
  exists r. split; by apply list_elem_of_In.
Qed.

Lemma block_member df (l : list (gmap string (@value double))) r i :
  r ∈ l → kept is_nan df r = true → (i < 62)%nat →
  pivot_row df r i ∈ concat (map (block is_nan df) l).
Proof.
  intros Hr Hk Hi. apply list_elem_of_In, in_concat.
  exists (block is_nan df r). split.
  - apply in_map. by apply list_elem_of_In.
  - apply list_elem_of_In, list_elem_of_lookup. exists i. by apply block_lookup.
Qed.

End ReshapeFacts.

(** ** The fill step *)

Section FillStep.

Context {double : Type} (is_nan : double → bool)
        (cast_text : dtype → string → option (@value double)).

Implicit Types (r : gmap string (@value double)) (df : @DataFrame double).

(** C5.  On a table whose [ISO2] column is a string column,
    [fillna({"ISO2": "Unknown"})] succeeds, keeps the header and the number of
    rows, and changes each row only where [ISO2] was null: a null [ISO2]
    becomes the string "Unknown", a non-null [ISO2] keeps its value, and every
    other column of every row is unchanged. *)
Theorem fillna_ISO2_frame df a :
  lookup_column df "ISO2" = Some (a, StringType) →
  ∃ df', fillna is_nan cast_text "ISO2" "Unknown" df = Ok df'
    ∧ schema df' = schema df
    ∧ length (rows df') = length (rows df)
    ∧ ∀ (k : nat) r, rows df !! k = Some r →
        ∃ r', rows df' !! k = Some r'
          ∧ (r !! a = None → r' !! a = Some (VStr "Unknown"))
          ∧ (∀ v, r !! a = Some v → r' !! a = Some v)
          ∧ ∀ c, c ≠ a → r' !! c = r !! c.
Proof.
  intros Hcol. unfold fillna. rewrite Hcol.
  eexists. split; [reflexivity|].
  cbn [schema rows]. split; [done|]. split; [apply length_map|].
  intros k r Hk. exists (fill_row is_nan cast_text a StringType "Unknown" r).
  split; [by rewrite list_lookup_fmap, Hk|].
  repeat split.
  - intros Hnull. rewrite lookup_fill_row, decide_True by done.
    by rewrite Hnull.
  - intros v Hv. rewrite lookup_fill_row, decide_True by done.
    rewrite Hv. by destruct v.
  - intros c Hc. rewrite lookup_fill_row. by rewrite decide_False.
Qed.

End FillStep.

(** ** The year step *)

Section YearStep.

Context {double : Type} (double_to_string : double → string).

Lemma parse_year_unfold ansi lbl :
  parse_year double_to_string ansi lbl
  = match Sql.cast_int ansi (Sql.substring lbl 2 4) with
    | Ok n => Ok (VInt <$> n)
    | Err e => Err e
    end.
Proof.
  unfold parse_year, year_expr, eval, seval.
  by rewrite lookup_singleton_eq.
Qed.

(** Characters 2 to 5 of a label of five characters or more. *)
Lemma substring_positions c d1 d2 d3 d4 rest :
  Sql.substring (String c (String d1 (String d2 (String d3 (String d4 rest))))) 2 4
  = String d1 (String d2 (String d3 (String d4 EmptyString))).
Proof.
  unfold Sql.substring. cbn [String.length].
  set (n := Z.of_nat _).
  assert (5 <= n) as Hn by (subst n; lia).
  change (0 <? 2) with true. cbv iota. change (2 - 1) with 1.
  change (1 + 4) with 5. change (5 <=? 1) with false.
  replace (n <=? 1) with false by (symmetry; apply Z.leb_gt; lia).
  cbn [orb]. change (Z.max 0 1) with 1.
  replace (Z.min 5 n - 1) with 4 by lia.
  change (Z.to_nat 1) with 1%nat. change (Z.to_nat 4) with 4%nat.
  cbn [String.substring]. by destruct rest.
Qed.

(** What the cast sees in a digit. *)
Lemma digit_facts a :
  Sql.is_digit a = true →
  Sql.digit_of a = Some (Z.of_nat (nat_of_ascii a) - 48)
  ∧ 0 <= Z.of_nat (nat_of_ascii a) - 48 <= 9
  ∧ Sql.is_blank a = false
  ∧ Ascii.eqb a "-" = false ∧ Ascii.eqb a "+" = false
  ∧ Ascii.eqb a "." = false.
Proof.
  destruct a as [[] [] [] [] [] [] [] []]; vm_compute;
    (discriminate || (intros _; repeat split; congruence)).
Qed.

Lemma cast_four_digits ansi d1 d2 d3 d4 :
  Sql.is_digit d1 = true → Sql.is_digit d2 = true →
  Sql.is_digit d3 = true → Sql.is_digit d4 = true →
  Sql.cast_int ansi (String d1 (String d2 (String d3 (String d4 EmptyString))))
  = Ok (Some (decimal_value (String d1 (String d2 (String d3 (String d4 EmptyString))))))
  ∧ 0 <= decimal_value (String d1 (String d2 (String d3 (String d4 EmptyString))))
      <= 9999.
Proof.
  intros (E1 & R1 & B1 & M1 & P1 & D1)%digit_facts
         (E2 & R2 & B2 & M2 & P2 & D2)%digit_facts
         (E3 & R3 & B3 & M3 & P3 & D3)%digit_facts
         (E4 & R4 & B4 & M4 & P4 & D4)%digit_facts.
  unfold decimal_value. cbn [list_ascii_of_string fold_left].
  set (v := 10 * (10 * (10 * (10 * 0 + _) + _) + _) + _).
  assert (0 <= v <= 9999) as Hv by (subst v; lia).
  split; [|done].
  unfold Sql.cast_int, Sql.to_int.
  cbn [Sql.trim_left]. rewrite B1.
  cbn [Sql.trim_right]. rewrite B4. cbv iota.
  rewrite M1, P1. cbn [orb andb].
  cbn [Sql.integral]. rewrite D1, D2, D3, D4, !andb_false_r, E1, E2, E3, E4.
  fold v. replace (v <=? 2147483647) with true by (symmetry; apply Z.leb_le; lia).
  reflexivity.
Qed.

Lemma parse_year_digits ansi c d1 d2 d3 d4 rest :
  Sql.is_digit d1 = true → Sql.is_digit d2 = true →
  Sql.is_digit d3 = true → Sql.is_digit d4 = true →
  parse_year double_to_string ansi
    (String c (String d1 (String d2 (String d3 (String d4 rest)))))
  = Ok (Some (VInt (decimal_value
                      (String d1 (String d2 (String d3 (String d4 EmptyString))))))).
Proof.
  intros H1 H2 H3 H4. rewrite parse_year_unfold, substring_positions.
  by destruct (cast_four_digits ansi d1 d2 d3 d4) as [-> _].
Qed.

(** Without ANSI evaluation the cast gives null where the text is not a
    number: the year step then never raises. *)
Lemma parse_year_legacy_total lbl :
  ∃ v, parse_year double_to_string false lbl = Ok v.
Proof.
  rewrite parse_year_unfold. unfold Sql.cast_int.
  destruct (Sql.to_int _ _); eauto.
Qed.

(** C4.  A label made of one letter and four digits is parsed to the number
    that its four digits spell, a number between 0 and 9999: the prefix is
    dropped and nothing else is read.  So [F1961] gives 1961 and [F2022]
    gives 2022. *)
Theorem year_parse_well_formed ansi lbl :
  matches_pattern lbl = true →
  parse_year double_to_string ansi lbl
  = Ok (Some (VInt (decimal_value (String.substring 1 4 lbl))))
  ∧ 0 <= decimal_value (String.substring 1 4 lbl) <= 9999.
Proof.
  destruct lbl as [|c [|d1 [|d2 [|d3 [|d4 [|x rest]]]]]]; try discriminate.
  cbn [matches_pattern].
  intros ((((_ & H1)%andb_true_iff & H2)%andb_true_iff
            & H3)%andb_true_iff & H4)%andb_true_iff.
  cbn [String.substring]. split.
  - by apply parse_year_digits.
  - by apply cast_four_digits.
Qed.

(** C3, as the script has it.  The year step does not check the label
    against the pattern.  It reads the four characters at positions 2 to 5
    and casts them: when they are digits the result is the number they
    spell, whatever the first character is and whatever follows the fifth;
    and without ANSI evaluation no label at all raises an error (a text
    that is not a number gives null). *)
Theorem year_parse_unchecked ansi c d1 d2 d3 d4 rest :
  Sql.is_digit d1 = true → Sql.is_digit d2 = true →
  Sql.is_digit d3 = true → Sql.is_digit d4 = true →
  parse_year double_to_string ansi
    (String c (String d1 (String d2 (String d3 (String d4 rest)))))
  = Ok (Some (VInt (decimal_value
                      (String d1 (String d2 (String d3 (String d4 EmptyString)))))))
  ∧ ∀ lbl, ∃ v, parse_year double_to_string false lbl = Ok v.
Proof.
  intros H1 H2 H3 H4. split.
  - by apply parse_year_digits.
  - apply parse_year_legacy_total.
Qed.

End YearStep.

(** ** The reshape *)

Section Reshape.

Context {double : Type} (double_to_string : double → string)
        (is_nan : double → bool)
        (cast_text : dtype → string → option (@value double)).

Implicit Types (r o : gmap string (@value double)) (df : @DataFrame double).

Lemma schema_block_identity df r o :
  input_schema df = true → o ∈ block is_nan df r →
  o !! "ObjectId" = r !! "ObjectId"
  ∧ o !! "Country" = r !! "Country"
  ∧ o !! "ISO3" = r !! "ISO3".
Proof.
  intros Hs (_ & i & _ & ->)%elem_of_block.
  assert ("ObjectId" ∈ identity_columns) as H1 by apply list_elem_of_here.
  assert ("Country" ∈ identity_columns) as H2
    by apply list_elem_of_further, list_elem_of_here.
  assert ("ISO3" ∈ identity_columns) as H3
    by (do 2 apply list_elem_of_further; apply list_elem_of_here).
  rewrite !lookup_pivot_row_identity by done.
  by rewrite !schema_actual_identity.
Qed.

(** C1, as the engine has it.  On a table of the expected schema the
    transform succeeds and its output is the concatenation, in input order, of
    one block per input row.  The block of a row in which some value column
    holds a value that is not not-a-number has exactly 62 rows; the block of
    a row whose 62 value columns are all null or not-a-number is empty; and
    every row of a block carries the identity values of its input row.  Hence
    the output has (number of surviving rows) × 62 rows. *)
Theorem reshape_row_count ansi df :
  input_schema df = true →
  ∃ out blocks,
    transform double_to_string is_nan cast_text ansi df = Ok out
    ∧ rows out = concat blocks
    ∧ Forall2 (fun r b =>
         length b = (if has_value is_nan df r then 62 else 0)%nat
         ∧ ∀ o, o ∈ b →
             o !! "ObjectId" = r !! "ObjectId"
             ∧ o !! "Country" = r !! "Country"
             ∧ o !! "ISO3" = r !! "ISO3")
       (rows df) blocks
    ∧ length (rows out)
      = (length (List.filter (has_value is_nan df) (rows df)) * 62)%nat.
Proof.
  intros Hs. eexists. exists (map (block is_nan df) (rows df)).
  split; [by apply transform_rows|]. cbn [rows].
  split; [done|]. split.
  - apply Forall2_map_self. intros r. split.
    + by rewrite block_length, schema_kept.
    + intros o Ho. by apply (schema_block_identity df r o).
  - rewrite concat_blocks_length.
    rewrite (filter_ext (kept is_nan df) (has_value is_nan df))
      by (intros r; by apply schema_kept).
    lia.
Qed.

(** C2, as the script has it.  On a table of the expected schema the output
    columns are [ObjectId], [Country], [ISO3], [Year], [Temperature], in
    this order; [Year] is an integer column and [Temperature] has the type of
    the value columns.  Every output row comes from an input row and one of
    the 62 value columns: it carries that input row's [ObjectId], [Country]
    and [ISO3] unchanged, an integer [Year], and in [Temperature] the cell of
    the value column, null when that cell is null.  [ISO2] is not selected:
    no output row holds it. *)
Theorem output_record ansi df :
  input_schema df = true →
  ∃ out,
    transform double_to_string is_nan cast_text ansi df = Ok out
    ∧ columns out = ["ObjectId"; "Country"; "ISO3"; "Year"; "Temperature"]
    ∧ lookup_column out "Year" = Some ("Year", IntegerType)
    ∧ lookup_column out "Temperature" = Some ("Temperature", col_type df "F1961")
    ∧ ∀ o, o ∈ rows out →
        ∃ r (i : nat), r ∈ rows df ∧ (i < 62)%nat
          ∧ o !! "ObjectId" = r !! "ObjectId"
          ∧ o !! "Country" = r !! "Country"
          ∧ o !! "ISO3" = r !! "ISO3"
          ∧ o !! "Year" = Some (VInt (Z.of_nat (1961 + i)))
          ∧ o !! "Temperature" = r !! label i
          ∧ o !! "ISO2" = None.
Proof.
  intros Hs. eexists. split; [by apply transform_rows|]. cbn [rows].
  split; [reflexivity|]. split; [reflexivity|]. split; [reflexivity|].
  intros o (r & Hr & Ho)%elem_of_concat_blocks.
  destruct (schema_block_identity df r o Hs Ho) as (H1 & H2 & H3).
  apply elem_of_block in Ho as (_ & i & Hi & ->).
  exists r, i. split; [done|]. split; [done|].
  rewrite lookup_pivot_row_Year, lookup_pivot_row_Temperature.
  rewrite schema_actual_label by done.
  repeat split; try done. by rewrite lookup_pivot_row_plain.
Qed.

(** C6, as the engine has it.  On a table of the expected schema, the block
    of an input row in which some value column holds a value that is not
    not-a-number has 62 rows whatever the other value columns hold; its
    [i]-th row is the row of year [1961 + i] and its [Temperature] is the cell
    of the column [F(1961 + i)], hence null whenever that cell is null. *)
Theorem partial_nulls_keep_all_rows ansi df :
  input_schema df = true →
  ∃ out blocks,
    transform double_to_string is_nan cast_text ansi df = Ok out
    ∧ rows out = concat blocks
    ∧ Forall2 (fun r b =>
         has_value is_nan df r = true →
         length b = 62%nat
         ∧ ∀ i, (i < 62)%nat →
             ∃ o, b !! i = Some o
               ∧ o !! "Year" = Some (VInt (Z.of_nat (1961 + i)))
               ∧ o !! "Temperature" = r !! label i
               ∧ (is_null r (label i) = true → o !! "Temperature" = None))
       (rows df) blocks.
Proof.
  intros Hs. eexists. exists (map (block is_nan df) (rows df)).
  split; [by apply transform_rows|]. cbn [rows]. split; [done|].
  apply Forall2_map_self. intros r Hr.
  rewrite <- (schema_kept is_nan df r Hs) in Hr. split.
  - by rewrite block_length, Hr.
  - intros i Hi. exists (pivot_row df r i).
    split; [by apply block_lookup|].
    rewrite lookup_pivot_row_Year, lookup_pivot_row_Temperature.
    rewrite schema_actual_label by done.
    repeat split. unfold is_null. by destruct (r !! label i).
Qed.

(** C9.  Whenever the transform succeeds, its output is one block per input
    row, in input order: the block of a row that the drop step keeps holds in
    [Year] the years 1961, 1962, ..., 2022, each once and in this order, and
    the block of a row that the drop step drops is empty.  Every [Year] of
    the output is an integer between 1961 and 2022. *)
Theorem years_ascending_in_range ansi df out :
  transform double_to_string is_nan cast_text ansi df = Ok out →
  ∃ blocks,
    rows out = concat blocks
    ∧ Forall2 (fun r b =>
         if kept is_nan df r
         then map (fun o => o !! "Year") b
              = map (fun i => Some (VInt (Z.of_nat (1961 + i)))) (seq 0 62)
         else b = [])
       (rows df) blocks
    ∧ ∀ o, o ∈ rows out →
        ∃ y, o !! "Year" = Some (VInt y) ∧ 1961 <= y <= 2022.
Proof.
  rewrite transform_any.
  destruct (first_missing df required_columns) as [c|]; [done|].
  destruct (type_mismatch 2 (stack_types df)) as [i|]; [done|].
  intros Hout. assert (rows out = concat (map (block is_nan df) (rows df)))
    as -> by (by injection Hout as <-).
  clear Hout. exists (map (block is_nan df) (rows df)).
  split; [done|]. split.
  - apply Forall2_map_self. intros r. unfold block.
    destruct (kept is_nan df r); [|done].
    rewrite map_map. apply map_ext. intros i. apply lookup_pivot_row_Year.
  - intros o (r & _ & (_ & i & Hi & ->)%elem_of_block)%elem_of_concat_blocks.
    exists (Z.of_nat (1961 + i)). split; [apply lookup_pivot_row_Year | lia].
Qed.

(** C10.  On any table, the labels that the year step parses are the
    generated ones: when the reshape succeeds, every row it hands to the
    year step holds in [Year] one of the 62 labels [F1961] .. [F2022], which
    matches the pattern and which the year step parses to its year without
    an error, with or without ANSI evaluation; so the transform succeeds. *)
Theorem generated_labels_always_parse ansi df t :
  reshape double_to_string is_nan cast_text ansi df = Ok t →
  (∃ out, transform double_to_string is_nan cast_text ansi df = Ok out)
  ∧ Forall (fun o =>
       ∃ i, (i < 62)%nat
         ∧ o !! "Year" = Some (VStr (label i))
         ∧ matches_pattern (label i) = true
         ∧ year_step double_to_string ansi o
           = Ok (set_cell "Year" (Some (VInt (Z.of_nat (1961 + i))))
                          (delete "Year" o)))
     (rows t).
Proof.
  rewrite transform_any, reshape_any.
  destruct (first_missing df required_columns) as [c|]; [done|].
  destruct (type_mismatch 2 (stack_types df)) as [i|]; [done|].
  intros Ht. split; [by eexists|].
  assert (rows t = concat (map (fun r => map (stacked_row df r) (seq 0 62))
                               (List.filter (kept is_nan df) (rows df))))
    as -> by (by injection Ht as <-).
  apply Forall_forall.
  intros o (b & Hb & Ho)%list_elem_of_In%in_concat.
  apply in_map_iff in Hb as (r & <- & _).
  apply in_map_iff in Ho as (j & <- & Hj%in_seq).
  exists j. split; [lia|]. split; [apply lookup_stacked_row_Year|]. split.
  - pose proof labels_match_pattern as H. rewrite forallb_forall in H.
    apply H, In_year_columns. exists j. split; [lia | done].
  - rewrite year_step_stacked by lia. reflexivity.
Qed.

End Reshape.

(** ** The transform on any table *)

Section AnyTable.

Context {double : Type} (double_to_string : double → string)
        (is_nan : double → bool)
        (cast_text : dtype → string → option (@value double)).

Implicit Types (r o : gmap string (@value double)) (df : @DataFrame double).


Lemma kept_exists df r :
  distinct_names (columns df) = true →
  kept is_nan df r = true
  ↔ ∃ c, In c (columns df) ∧ String.prefix "F" c = true
         ∧ is_missing is_nan (col_type df c) (r !! c) = false.
Proof.
  intros Hd. unfold kept, temperatre_columns. rewrite existsb_exists.
  assert (∀ c, In c (columns df) → actual df c = c) as Hact.
  { intros c Hc. destruct (lookup_exact df c Hd Hc) as [ty Hty].
    unfold actual. by rewrite Hty. }
  split.
  - intros (c & [Hin Hp]%filter_In & Hn). exists c.
    rewrite Hact in Hn by done.
    repeat split; try done. by apply negb_true_iff in Hn.
  - intros (c & Hin & Hp & Hn). exists c. split; [by apply filter_In|].
    rewrite Hact by done. by apply negb_true_iff.
Qed.

Lemma schema_only df df' :
  schema df = schema df' →
  first_missing df required_columns = first_missing df' required_columns
  ∧ stack_types df = stack_types df'
  ∧ out_schema df = out_schema df'
  ∧ temperatre_columns df = temperatre_columns df'
  ∧ (∀ c, actual df c = actual df' c)
  ∧ (∀ c, col_type df c = col_type df' c).
Proof.
  intros Hs.
  unfold first_missing, stack_types, out_schema, temperatre_columns, has_column,
    actual, col_type, lookup_column, columns.
  by rewrite Hs.
Qed.

Lemma kept_agree df df' r r' :
  schema df = schema df' →
  (∀ c, c ≠ "ISO2" → r !! c = r' !! c) →
  kept is_nan df r = kept is_nan df' r'.
Proof.
  intros Hs Hr. destruct (schema_only df df' Hs) as (_ & _ & _ & Ht & Ha & Hc).
  unfold kept. rewrite <- Ht. apply existsb_ext_in. intros c Hin.
  rewrite <- Ha, <- Hc, Hr; [done|].
  by apply (temperature_column_not_ISO2 df c "ISO2").
Qed.

Lemma pivot_row_agree df df' r r' i :
  schema df = schema df' →
  (∀ c, c ≠ "ISO2" → r !! c = r' !! c) →
  pivot_row df r i = pivot_row df' r' i.
Proof.
  intros Hs Hr. destruct (schema_only df df' Hs) as (_ & _ & _ & _ & Ha & _).
  unfold pivot_row, stacked_row. rewrite <- Ha.
  rewrite (Hr (actual df (label i)))
    by (apply (actual_not_ISO2 df (label i) "ISO2");
        [done | apply label_not_ISO2]).
  f_equal. f_equal. f_equal. f_equal. apply map_eq. intros c.
  rewrite !project_selection. case_decide as Hc; [|done].
  rewrite <- Ha. apply Hr.
  apply (actual_not_ISO2 df c "ISO2"); [done|].
  apply identity_not_ISO2. by apply list_elem_of_In.
Qed.


(** X3.  On a table with names distinct up to letter case on which the
    transform succeeds, the output is one block per input row, in input
    order.  A row is kept when some column whose name starts with [F] holds,
    in it, a cell that is not missing, whether or not that column is one of
    the 62 value columns; a kept row gives 62 rows, the [i]-th with the year
    [1961 + i] and the cell of the column that [F(1961 + i)] resolves to, and a
    row that is not kept gives none. *)
Theorem rows_kept_by_F_columns ansi df out :
  distinct_names (columns df) = true →
  transform double_to_string is_nan cast_text ansi df = Ok out →
  ∃ blocks,
    rows out = concat blocks
    ∧ Forall2 (fun r b =>
         if kept is_nan df r
         then length b = 62%nat
              ∧ (∃ c, In c (columns df) ∧ String.prefix "F" c = true
                      ∧ is_missing is_nan (col_type df c) (r !! c) = false)
              ∧ ∀ i, (i < 62)%nat →
                  ∃ o, b !! i = Some o
                    ∧ o !! "Year" = Some (VInt (Z.of_nat (1961 + i)))
                    ∧ o !! "Temperature" = r !! actual df (label i)
         else b = []
              ∧ ∀ c, In c (columns df) → String.prefix "F" c = true →
                     is_missing is_nan (col_type df c) (r !! c) = true)
       (rows df) blocks.
Proof.
  intros Hd. rewrite transform_any.
  destruct (first_missing df required_columns) as [c|]; [done|].
  destruct (type_mismatch 2 (stack_types df)) as [j|]; [done|].
  intros Hout. assert (rows out = concat (map (block is_nan df) (rows df)))
    as -> by (by injection Hout as <-).
  clear Hout. exists (map (block is_nan df) (rows df)). split; [done|].
  apply Forall2_map_self. intros r.
  destruct (kept is_nan df r) eqn:Hk.
  - split; [by rewrite block_length, Hk|].
    split; [by apply kept_exists|].
    intros i Hi. exists (pivot_row df r i). split; [by apply block_lookup|].
    by rewrite lookup_pivot_row_Year, lookup_pivot_row_Temperature.
  - split; [unfold block; by rewrite Hk|]. intros c Hin Hp.
    destruct (is_missing is_nan (col_type df c) (r !! c)) eqn:Hn; [done|].
    assert (kept is_nan df r = true) as Hk' by (apply kept_exists; eauto).
    congruence.
Qed.

(** X4.  The transform never reads [ISO2] cells: two tables with the same
    header whose rows agree, one by one, on every column other than [ISO2]
    give the same result.  In particular the "Unknown" written by the fill
    step never reaches [df_pivot]. *)
Theorem iso2_never_read ansi df df' :
  schema df = schema df' →
  Forall2 (fun r r' => ∀ c, c ≠ "ISO2" → r !! c = r' !! c) (rows df) (rows df') →
  transform double_to_string is_nan cast_text ansi df
  = transform double_to_string is_nan cast_text ansi df'.
Proof.
  intros Hs Hrows. rewrite !transform_any.
  destruct (schema_only df df' Hs) as (<- & <- & <- & _).
  destruct (first_missing df required_columns); [done|].
  destruct (type_mismatch 2 (stack_types df)); [done|].
  f_equal. f_equal.
  induction Hrows as [|r r' l l' Hr _ IH]; [done|].
  cbn [map concat]. rewrite IH. f_equal. unfold block.
  rewrite (kept_agree df df' r r') by done.
  destruct (kept is_nan df' r'); [|done].
  apply map_ext. intros i. by apply pivot_row_agree.
Qed.



End AnyTable.
(** ** The collected rows *)

Section Collected.

Context {double : Type} (double_to_string : double → string)
        (is_nan : double → bool)
        (cast_text : dtype → string → option (@value double)).

Implicit Types (r o : gmap string (@value double)) (df : @DataFrame double).

Lemma py_slice_last {A} (l : list A) :
  py_slice_from (-5) l = drop (length l - 5) l.
Proof.
  unfold py_slice_from. change (-5 <? 0) with true. cbv iota.
  f_equal. lia.
Qed.

Lemma py_slice_last_app {A} (l l5 : list A) :
  length l5 = 5%nat → py_slice_from (-5) (l ++ l5) = l5.
Proof.
  intros H5. rewrite py_slice_last, length_app, H5.
  replace (length l + 5 - 5)%nat with (length l) by lia.
  apply drop_app_length.
Qed.

(** X7.  [data[-5:]] never fails: it holds the last five collected rows when
    there are five or more, and all of them (none for an empty table) when
    there are fewer; in every case it is the end of [data]. *)
Theorem last_5_rows_suffix (data : list (gmap string (@value double))) :
  length (last_5_rows data) = Nat.min 5 (length data)
  ∧ ∃ front, data = (front ++ last_5_rows data)%list.
Proof.
  unfold last_5_rows. rewrite py_slice_last. split.
  - rewrite length_drop. lia.
  - exists (take (length data - 5) data). by rewrite take_drop.
Qed.

Lemma concat_unkept df (l : list (gmap string (@value double))) :
  Forall (fun r => kept is_nan df r = false) l →
  concat (map (block is_nan df) l) = [].
Proof.
  induction 1 as [|r l Hr _ IH]; [done|].
  cbn [map concat]. unfold block at 1. by rewrite Hr, IH.
Qed.

Lemma last_5_rows_transform ansi df out front r back :
  transform double_to_string is_nan cast_text ansi df = Ok out →
  rows df = (front ++ r :: back)%list →
  kept is_nan df r = true →
  Forall (fun r' => kept is_nan df r' = false) back →
  last_5_rows (collect out) = map (pivot_row df r) (seq 57 5).
Proof.
  rewrite transform_any.
  destruct (first_missing df required_columns) as [c|]; [done|].
  destruct (type_mismatch 2 (stack_types df)) as [j|]; [done|].
  intros Hout Hrows Hr Hback.
  assert (rows out = concat (map (block is_nan df) (rows df)))
    as Hout' by (by injection Hout as <-).
  unfold collect, last_5_rows.
  rewrite Hout', Hrows, map_app, concat_app. cbn [map concat].
  rewrite (concat_unkept df back Hback), app_nil_r.
  unfold block at 2. rewrite Hr.
  change (seq 0 62) with (seq 0 57 ++ seq 57 5)%list.
  rewrite map_app, app_assoc.
  apply py_slice_last_app. by rewrite length_map, length_seq.
Qed.

(** X8.  On a table of the expected schema, the last five collected rows are
    the rows of the years 2018 to 2022 of the last input row that has a
    measured temperature: they carry that row's identity values and its
    cells [F2018] .. [F2022]. *)
Theorem last_rows_are_latest_years ansi df out front r back :
  input_schema df = true →
  transform double_to_string is_nan cast_text ansi df = Ok out →
  rows df = (front ++ r :: back)%list →
  has_value is_nan df r = true →
  Forall (fun r' => has_value is_nan df r' = false) back →
  map (fun o => (o !! "Year", o !! "Temperature")) (last_5_rows (collect out))
  = [(Some (VInt 2018), r !! "F2018"); (Some (VInt 2019), r !! "F2019");
     (Some (VInt 2020), r !! "F2020"); (Some (VInt 2021), r !! "F2021");
     (Some (VInt 2022), r !! "F2022")]
  ∧ Forall (fun o => o !! "ObjectId" = r !! "ObjectId"
                     ∧ o !! "Country" = r !! "Country"
                     ∧ o !! "ISO3" = r !! "ISO3")
           (last_5_rows (collect out)).
Proof.
  intros Hs Ht Hrows Hr Hback.
  rewrite (last_5_rows_transform ansi df out front r back Ht Hrows).
  - split.
    + rewrite map_map. cbn [seq map].
      rewrite !lookup_pivot_row_Year, !lookup_pivot_row_Temperature.
      by rewrite !schema_actual_label by (done || lia).
    + apply Forall_map, Forall_forall. intros i _.
      assert ("ObjectId" ∈ identity_columns) as H1 by apply list_elem_of_here.
      assert ("Country" ∈ identity_columns) as H2
        by apply list_elem_of_further, list_elem_of_here.
      assert ("ISO3" ∈ identity_columns) as H3
        by (do 2 apply list_elem_of_further; apply list_elem_of_here).
      rewrite !lookup_pivot_row_identity by done.
      by rewrite !schema_actual_identity.
  - by rewrite schema_kept.
  - eapply Forall_impl; [exact Hback|]. intros r' Hr'. cbv beta in Hr'.
    by rewrite schema_kept.
Qed.

End Collected.

(** ** The year step on any label *)

Section AnyLabel.

Context {double : Type} (double_to_string : double → string).

Lemma string_substring_length n m s :
  (String.length (String.substring n m s) <= m)%nat.
Proof.
  revert n m. induction s as [|a s IH]; intros [|n] [|m]; cbn; try lia.
  - specialize (IH 0%nat m). lia.
  - apply (IH n 0%nat).
  - apply (IH n (S m)).
Qed.

Lemma substring_length s pos len :
  (String.length (Sql.substring s pos len) <= Z.to_nat len)%nat.
Proof.
  unfold Sql.substring.
  set (n := Z.of_nat (String.length s)).
  set (start := if 0 <? pos then pos - 1 else if pos <? 0 then n + pos else 0).
  destruct ((start + len <=? start) || (n <=? start)); [cbn; lia|].
  etransitivity; [apply string_substring_length|]. lia.
Qed.

Lemma trim_left_length s :
  (String.length (Sql.trim_left s) <= String.length s)%nat.
Proof.
  induction s as [|a s IH]; [done|].
  cbn [Sql.trim_left]. destruct (Sql.is_blank a); cbn [String.length]; lia.
Qed.

Lemma trim_right_length s :
  (String.length (Sql.trim_right s) <= String.length s)%nat.
Proof.
  induction s as [|a s IH]; [done|].
  cbn [Sql.trim_right]. destruct (Sql.trim_right s) as [|b t].
  - destruct (Sql.is_blank a); cbn [String.length] in *; lia.
  - cbn [String.length] in *. lia.
Qed.

Lemma digit_of_range a d : Sql.digit_of a = Some d → 0 <= d <= 9.
Proof.
  unfold Sql.digit_of.
  destruct (48 <=? Z.of_nat (nat_of_ascii a)) eqn:H1;
    destruct (Z.of_nat (nat_of_ascii a) <=? 57) eqn:H2; cbn; try discriminate.
  intros [= <-]. apply Z.leb_le in H1, H2. lia.
Qed.

Lemma integral_bound allow acc s m :
  0 <= acc →
  Sql.integral allow acc s = Some m →
  0 <= m < (acc + 1) * 10 ^ Z.of_nat (String.length s).
Proof.
  revert acc. induction s as [|a s IH]; intros acc Hacc.
  - cbn. intros [= <-]. lia.
  - cbn [Sql.integral String.length].
    rewrite Nat2Z.inj_succ, Z.pow_succ_r by lia.
    assert (0 < 10 ^ Z.of_nat (String.length s)) as Hpow
      by (apply Z.pow_pos_nonneg; lia).
    destruct (allow && Ascii.eqb a ".").
    + destruct (Sql.all_digits s); [|discriminate]. intros [= <-]. nia.
    + destruct (Sql.digit_of a) as [d|] eqn:Hd; [|discriminate].
      apply digit_of_range in Hd. intros Hm.
      apply IH in Hm; [|lia]. nia.
Qed.

Lemma to_int_bound allow s n :
  (String.length s <= 4)%nat → Sql.to_int allow s = Some n → -999 <= n <= 9999.
Proof.
  intros Hlen. unfold Sql.to_int.
  pose proof (trim_right_length (Sql.trim_left s)) as H1.
  pose proof (trim_left_length s) as H2.
  destruct (Sql.trim_right (Sql.trim_left s)) as [|a rest] eqn:Ht; [done|].
  cbn [String.length] in H1.
  assert (10 ^ Z.of_nat (String.length rest) <= 10 ^ 3) as Hrest
    by (apply Z.pow_le_mono_r; lia).
  destruct ((Ascii.eqb a "-" || Ascii.eqb a "+")
            && (String.length rest =? 0)%nat); [done|].
  destruct (Ascii.eqb a "-" || Ascii.eqb a "+") eqn:Hsigned.
  - destruct (Sql.integral allow 0 rest) as [m|] eqn:Hm; [|done].
    apply integral_bound in Hm; [|lia].
    destruct (Ascii.eqb a "-").
    + destruct (m <=? 2147483648); [|done]. intros [= <-]. lia.
    + destruct (m <=? 2147483647); [|done]. intros [= <-]. lia.
  - destruct (Sql.integral allow 0 (String a rest)) as [m|] eqn:Hm; [|done].
    apply integral_bound in Hm; [|lia].
    cbn [String.length] in Hm.
    rewrite Nat2Z.inj_succ, Z.pow_succ_r in Hm by lia.
    apply orb_false_iff in Hsigned as [-> _].
    destruct (m <=? 2147483647); [|done]. intros [= <-]. lia.
Qed.

(** X9.  Whatever the label, a year that the year step produces lies between
    -999 and 9999: at most four characters are cast, so the 32-bit range of
    the cast is never reached. *)
Theorem parsed_year_bounds ansi lbl y :
  parse_year double_to_string ansi lbl = Ok (Some (VInt y)) →
  -999 <= y <= 9999.
Proof.
  rewrite parse_year_unfold. unfold Sql.cast_int.
  destruct (Sql.to_int (negb ansi) (Sql.substring lbl 2 4)) as [n|] eqn:Hn.
  - intros [= <-]. apply (to_int_bound _ _ _ (substring_length lbl 2 4) Hn).
  - by destruct ansi.
Qed.

(** X10.  A label of fewer than two characters leaves nothing to cast: the
    year step gives null without ANSI evaluation and raises an invalid-cast
    error on the empty text with it. *)
Theorem year_step_short_label lbl :
  (String.length lbl <= 1)%nat →
  parse_year double_to_string false lbl = Ok None
  ∧ parse_year double_to_string true lbl = Err (CastInvalidInput EmptyString).
Proof.
  intros Hlen. rewrite !parse_year_unfold.
  destruct lbl as [|a [|b rest]]; [done | done | cbn in Hlen; lia].
Qed.

End AnyLabel.

(** ** The fill step, again *)

Section FillAgain.

Context {double : Type} (is_nan : double → bool)
        (cast_text : dtype → string → option (@value double)).

Implicit Types (r : gmap string (@value double)) (df : @DataFrame double).

Lemma fill_row_idempotent a v r :
  fill_row is_nan cast_text a StringType v
    (fill_row is_nan cast_text a StringType v r)
  = fill_row is_nan cast_text a StringType v r.
Proof.
  apply map_eq. intros c. rewrite !lookup_fill_row.
  destruct (decide (a = c)) as [<-|]; [|done].
  rewrite decide_True by done.
  unfold fill_cell, cast_replacement.
  destruct (is_missing is_nan StringType (r !! a)) eqn:Hm; [done|].
  by rewrite Hm.
Qed.

(** X11.  On a string column (as [ISO2] is), after the fill no row has a
    null in the filled column, and filling again with the same replacement
    returns the same table: the step is idempotent. *)
Theorem fillna_idempotent c a v df df' :
  lookup_column df c = Some (a, StringType) →
  fillna is_nan cast_text c v df = Ok df' →
  Forall (fun r => is_null r a = false) (rows df')
  ∧ fillna is_nan cast_text c v df' = Ok df'.
Proof.
  unfold fillna. intros Hc. rewrite Hc. intros Hdf'.
  assert (df' = {| schema := schema df;
                   rows := map (fill_row is_nan cast_text a StringType v)
                               (rows df) |})
    as -> by (by injection Hdf' as <-).
  clear Hdf'. split.
  - cbn [rows]. apply Forall_map, Forall_forall. intros r _.
    unfold is_null. rewrite lookup_fill_row, decide_True by done.
    unfold fill_cell, cast_replacement.
    destruct (r !! a) as [[]|]; done.
  - change (lookup_column _ c) with (lookup_column df c). rewrite Hc.
    cbn [schema rows]. f_equal. f_equal.
    rewrite map_map. apply map_ext. intros r. apply fill_row_idempotent.
Qed.

End FillAgain.

(** ** The theorems on the sample tables *)

Lemma sample_input_schema : input_schema sample = true.
Proof. vm_compute. reflexivity. Qed.

Lemma fillna_ISO2_frame_witness :
  ∃ df' r', fillna number_is_nan no_text_cast "ISO2" "Unknown" sample = Ok df'
            ∧ schema df' = sample_schema
            ∧ length (rows df') = 4%nat
            ∧ rows df' !! 2%nat = Some r'
            ∧ r' !! "ISO2" = Some (VStr "Unknown")
            ∧ r' !! "Country" = Some (VStr "B").
Proof.
  destruct (fillna_ISO2_frame number_is_nan no_text_cast sample "ISO2")
    as (df' & H & Hc & Hl & Hrows); [vm_compute; reflexivity|].
  destruct (Hrows 2%nat row_B) as (r' & Hr' & Hnull & _ & Hother);
    [vm_compute; reflexivity|].
  exists df', r'. split; [exact H|]. split; [exact Hc|]. split; [exact Hl|].
  split; [exact Hr'|]. split.
  - apply Hnull. vm_compute. reflexivity.
  - rewrite Hother by done. vm_compute. reflexivity.
Defined.

Lemma year_parse_well_formed_witness :
  parse_year (double := Z) pretty false "F1961" = Ok (Some (VInt 1961))
  ∧ parse_year (double := Z) pretty true "F2022" = Ok (Some (VInt 2022)).
Proof.
  split.
  - exact (proj1 (year_parse_well_formed (double := Z) pretty false "F1961" eq_refl)).
  - exact (proj1 (year_parse_well_formed (double := Z) pretty true "F2022" eq_refl)).
Defined.

Lemma year_parse_unchecked_witness :
  matches_pattern "119612" = false
  ∧ parse_year (double := Z) pretty true "119612" = Ok (Some (VInt 1961)).
Proof.
  split; [reflexivity|].
  exact (proj1 (year_parse_unchecked (double := Z) pretty true
                  "1" "1" "9" "6" "1" "2" eq_refl eq_refl eq_refl eq_refl)).
Defined.

Lemma reshape_row_count_witness :
  ∃ out, transform number_to_string number_is_nan no_text_cast false sample = Ok out
         ∧ length (rows out) = 124%nat.
Proof.
  destruct (reshape_row_count number_to_string number_is_nan no_text_cast
              false sample)
    as (out & blocks & Ht & _ & _ & Hlen); [vm_compute; reflexivity|].
  exists out. split; [exact Ht | exact Hlen].
Defined.

Lemma output_record_witness :
  ∃ out, transform number_to_string number_is_nan no_text_cast true sample = Ok out
         ∧ columns out = ["ObjectId"; "Country"; "ISO3"; "Year"; "Temperature"]
         ∧ lookup_column out "Temperature" = Some ("Temperature", DoubleType).
Proof.
  destruct (output_record number_to_string number_is_nan no_text_cast true sample)
    as (out & Ht & Hc & _ & Hty & _); [vm_compute; reflexivity|].
  exists out. split; [exact Ht|]. split; [exact Hc | exact Hty].
Defined.

Lemma partial_nulls_keep_all_rows_witness :
  ∃ out o, transform number_to_string number_is_nan no_text_cast false sample = Ok out
           ∧ rows out !! 63%nat = Some o
           ∧ o !! "Year" = Some (VInt 1962)
           ∧ o !! "Temperature" = None.
Proof.
  destruct (partial_nulls_keep_all_rows number_to_string number_is_nan
              no_text_cast false sample)
    as (out & blocks & Ht & Hc & HF); [vm_compute; reflexivity|].
  apply Forall2_cons_inv_l in HF as (bA & blocks' & HA & HF & ->).
  apply Forall2_cons_inv_l in HF as (bP & blocks'' & HP & _ & ->).
  destruct HA as [HlenA _]; [vm_compute; reflexivity|].
  destruct HP as [HlenP Hrows]; [vm_compute; reflexivity|].
  destruct (Hrows 1%nat) as (o & Ho & Hy & _ & Hnull); [lia|].
  exists out, o. split; [exact Ht|]. split.
  - rewrite Hc. cbn [concat].
    rewrite lookup_app_r by lia. rewrite HlenA.
    rewrite lookup_app_l by lia. exact Ho.
  - split; [exact Hy|]. apply Hnull. vm_compute. reflexivity.
Defined.

Lemma years_ascending_in_range_witness :
  ∃ out, transform number_to_string number_is_nan no_text_cast false sample = Ok out
         ∧ ∀ o, o ∈ rows out →
             ∃ y, o !! "Year" = Some (VInt y) ∧ 1961 <= y <= 2022.
Proof.
  exists {| schema := out_schema sample;
            rows := concat (map (block number_is_nan sample) (rows sample)) |}.
  assert (transform number_to_string number_is_nan no_text_cast false sample
          = Ok {| schema := out_schema sample;
                  rows := concat (map (block number_is_nan sample) (rows sample)) |})
    as Ht.
  { rewrite transform_any.
    replace (first_missing sample required_columns) with (@None string)
      by (vm_compute; reflexivity).
    replace (type_mismatch 2 (stack_types sample)) with (@None nat)
      by (vm_compute; reflexivity).
    reflexivity. }
  split; [exact Ht|].
  destruct (years_ascending_in_range number_to_string number_is_nan no_text_cast
              false sample _ Ht) as (blocks & _ & _ & Hy).
  exact Hy.
Defined.

Lemma generated_labels_always_parse_witness :
  ∃ t, reshape number_to_string number_is_nan no_text_cast true sample = Ok t
       ∧ length (rows t) = 124%nat
       ∧ ∃ out, transform number_to_string number_is_nan no_text_cast true sample
                = Ok out.
Proof.
  exists {| schema := reshape_schema sample;
            rows := concat (map (fun r => map (stacked_row sample r) (seq 0 62))
                                (List.filter (kept number_is_nan sample)
                                             (rows sample))) |}.
  assert (reshape number_to_string number_is_nan no_text_cast true sample
          = Ok {| schema := reshape_schema sample;
                  rows := concat (map (fun r => map (stacked_row sample r) (seq 0 62))
                                      (List.filter (kept number_is_nan sample)
                                                   (rows sample))) |})
    as Ht.
  { rewrite reshape_any.
    replace (first_missing sample required_columns) with (@None string)
      by (vm_compute; reflexivity).
    replace (type_mismatch 2 (stack_types sample)) with (@None nat)
      by (vm_compute; reflexivity).
    reflexivity. }
  split; [exact Ht|]. split; [vm_compute; reflexivity|].
  exact (proj1 (generated_labels_always_parse number_to_string number_is_nan
                  no_text_cast true sample _ Ht)).
Defined.

(** ** Where the script departs from the specification *)

(** C1 as stated fails on the sample: country N has a value column that is
    not null (it holds not-a-number), and the output has no row for it; the
    output has 124 rows, not 62 for each of the three rows that have a
    non-null value column. *)
Lemma nan_row_dropped :
  row_N ∈ rows sample
  ∧ row_N !! "F1961" = Some (VDouble NaN)
  ∧ has_temperature row_N = true
  ∧ ∃ out, transform number_to_string number_is_nan no_text_cast false sample = Ok out
           ∧ rows_of_object 4 out = 0%nat
           ∧ length (rows out) = 124%nat
           ∧ (length (List.filter has_temperature (rows sample)) * 62 = 186)%nat.
Proof.
  split; [do 3 apply list_elem_of_further; apply list_elem_of_here|].
  split; [vm_compute; reflexivity|]. split; [vm_compute; reflexivity|].
  exists {| schema := out_schema sample;
            rows := concat (map (block number_is_nan sample) (rows sample)) |}.
  split; [apply transform_rows, sample_input_schema|].
  repeat split; vm_compute; reflexivity.
Qed.

(** C2 as stated fails on the sample: no output row carries the [ISO2] of an
    input row together with its other identity columns, because [ISO2] is
    not in the select list. *)
Lemma iso2_not_carried :
  ¬ (∀ out, transform number_to_string number_is_nan no_text_cast false sample
            = Ok out →
       ∀ o, o ∈ rows out →
         ∃ r, r ∈ rows sample
              ∧ o !! "ObjectId" = r !! "ObjectId"
              ∧ o !! "Country" = r !! "Country"
              ∧ o !! "ISO2" = r !! "ISO2"
              ∧ o !! "ISO3" = r !! "ISO3").
Proof.
  intros H.
  specialize (H _ (transform_rows number_to_string number_is_nan no_text_cast
                     false sample sample_input_schema)
                (pivot_row sample row_A 0)).
  destruct H as (r & Hr & Hid & _ & Hiso & _).
  { apply (block_member number_is_nan sample (rows sample) row_A 0);
      [apply list_elem_of_here | vm_compute; reflexivity | lia]. }
  rewrite lookup_pivot_row_plain in Hiso by done.
  rewrite decide_False in Hiso.
  2:{ intros Hin. unfold identity_columns in Hin.
      repeat (apply elem_of_cons in Hin as [Hin|Hin]; [discriminate Hin|]).
      by apply not_elem_of_nil in Hin. }
  rewrite lookup_pivot_row_identity in Hid by apply list_elem_of_here.
  rewrite (schema_actual_identity sample "ObjectId" sample_input_schema) in Hid
    by apply list_elem_of_here.
  cbn [rows sample] in Hr.
  apply elem_of_cons in Hr as [->|Hr].
  { vm_compute in Hiso. discriminate Hiso. }
  apply elem_of_cons in Hr as [->|Hr].
  { vm_compute in Hid. discriminate Hid. }
  apply elem_of_cons in Hr as [->|Hr].
  { vm_compute in Hid. discriminate Hid. }
  apply elem_of_cons in Hr as [->|Hr].
  { vm_compute in Hid. discriminate Hid. }
  by apply not_elem_of_nil in Hr.
Qed.

(** C3 as stated fails: [F196] does not match the pattern, and the year step
    turns it into 196 without an error, with and without ANSI evaluation. *)
Lemma malformed_label_coerced :
  matches_pattern "F196" = false
  ∧ (∀ ansi, parse_year (double := Z) pretty ansi "F196" = Ok (Some (VInt 196)))
  ∧ ¬ (∀ ansi lbl, matches_pattern lbl = false →
         ∃ e, parse_year (double := Z) pretty ansi lbl = Err e).
Proof.
  assert (∀ ansi, parse_year (double := Z) pretty ansi "F196" = Ok (Some (VInt 196)))
    as Hp by (intros []; reflexivity).
  split; [reflexivity|]. split; [exact Hp|].
  intros H. destruct (H false "F196" eq_refl) as [e He].
  rewrite Hp in He. discriminate He.
Qed.

(** C6 as stated fails on the sample: in the row of country N only some of
    the value columns are null ([F1961] holds not-a-number, the others are
    null), and the reshape emits no row for it instead of 62. *)
Lemma nan_only_row_emits_nothing :
  is_null row_N "F1961" = false
  ∧ is_null row_N "F1962" = true
  ∧ has_value number_is_nan sample row_N = false
  ∧ ∃ out, transform number_to_string number_is_nan no_text_cast true sample = Ok out
           ∧ rows_of_object 4 out = 0%nat
           ∧ rows_of_object 2 out = 62%nat.
Proof.
  split; [vm_compute; reflexivity|]. split; [vm_compute; reflexivity|].
  split; [vm_compute; reflexivity|].
  exists {| schema := out_schema sample;
            rows := concat (map (block number_is_nan sample) (rows sample)) |}.
  split; [apply transform_rows, sample_input_schema|].
  split; vm_compute; reflexivity.
Qed.

(** ** The further theorems on sample tables *)


Lemma rows_kept_by_F_columns_witness :
  has_temperature row_C = false
  ∧ ∃ out o, transform number_to_string number_is_nan no_text_cast false flagged
             = Ok out
             ∧ rows out !! 0%nat = Some o
             ∧ o !! "Year" = Some (VInt 1961)
             ∧ o !! "Temperature" = None.
Proof.
  split; [vm_compute; reflexivity|].
  assert (transform number_to_string number_is_nan no_text_cast false flagged
          = Ok {| schema := out_schema flagged;
                  rows := concat (map (block number_is_nan flagged) (rows flagged)) |})
    as Ht.
  { rewrite transform_any.
    replace (first_missing flagged required_columns) with (@None string)
      by (vm_compute; reflexivity).
    replace (type_mismatch 2 (stack_types flagged)) with (@None nat)
      by (vm_compute; reflexivity).
    reflexivity. }
  assert (distinct_names (columns flagged) = true) as Hd
    by (vm_compute; reflexivity).
  destruct (rows_kept_by_F_columns number_to_string number_is_nan no_text_cast
              false flagged _ Hd Ht)
    as (blocks & Hrows & HF).
  apply Forall2_cons_inv_l in HF as (b & blocks' & HC & _ & ->).
  assert (kept number_is_nan flagged row_C = true) as Hk
    by (vm_compute; reflexivity).
  rewrite Hk in HC.
  destruct HC as (Hlen & _ & Hcells).
  destruct (Hcells 0%nat) as (o & Ho & Hy & Hcell); [lia|].
  eexists _, o. split; [exact Ht|]. split.
  - rewrite Hrows. cbn [concat]. rewrite lookup_app_l by lia. exact Ho.
  - split; [exact Hy|]. rewrite Hcell. vm_compute. reflexivity.
Defined.

Lemma iso2_never_read_witness :
  transform number_to_string number_is_nan no_text_cast false sample
  = transform number_to_string number_is_nan no_text_cast false recoded.
Proof.
  apply iso2_never_read; [reflexivity|].
  cbn [rows sample recoded].
  constructor; [|constructor; [|constructor; [|constructor; [|constructor]]]].
  - intros c Hc. symmetry. by apply lookup_insert_ne.
  - intros c Hc. symmetry. by apply lookup_delete_ne.
  - intros c Hc. symmetry. by apply lookup_insert_ne.
  - done.
Defined.

Lemma last_rows_are_latest_years_witness :
  ∃ out, transform number_to_string number_is_nan no_text_cast false sample = Ok out
         ∧ map (fun o => (o !! "Year", o !! "Temperature")) (last_5_rows (collect out))
           = [(Some (VInt 2018), None); (Some (VInt 2019), None);
              (Some (VInt 2020), None); (Some (VInt 2021), None);
              (Some (VInt 2022), Some (VDouble (Num 15)))].
Proof.
  assert (transform number_to_string number_is_nan no_text_cast false sample
          = Ok {| schema := out_schema sample;
                  rows := concat (map (block number_is_nan sample) (rows sample)) |})
    as Ht.
  { rewrite transform_any.
    replace (first_missing sample required_columns) with (@None string)
      by (vm_compute; reflexivity).
    replace (type_mismatch 2 (stack_types sample)) with (@None nat)
      by (vm_compute; reflexivity).
    reflexivity. }
  assert (input_schema sample = true) as Hs by (vm_compute; reflexivity).
  eexists. split; [exact Ht|].
  destruct (last_rows_are_latest_years number_to_string number_is_nan no_text_cast
              false sample _ [row_A] row_P [row_B; row_N] Hs Ht)
    as [Hrows _].
  - reflexivity.
  - vm_compute. reflexivity.
  - repeat constructor; vm_compute; reflexivity.
  - rewrite Hrows. vm_compute. reflexivity.
Defined.

Lemma parsed_year_bounds_witness : -999 <= -999 <= 9999.
Proof.
  apply (parsed_year_bounds (double := Z) pretty true "F-999").
  vm_compute. reflexivity.
Defined.

Lemma year_step_short_label_witness :
  parse_year (double := Z) pretty false "F" = Ok None
  ∧ parse_year (double := Z) pretty true "F" = Err (CastInvalidInput EmptyString).
Proof.
  apply (year_step_short_label (double := Z) pretty "F"). cbn. lia.
Defined.

Lemma fillna_idempotent_witness :
  ∃ df', fillna number_is_nan no_text_cast "ISO2" "Unknown" sample = Ok df'
         ∧ Forall (fun r => is_null r "ISO2" = false) (rows df')
         ∧ fillna number_is_nan no_text_cast "ISO2" "Unknown" df' = Ok df'.
Proof.
  eexists. split; [reflexivity|].
  apply (fillna_idempotent number_is_nan no_text_cast "ISO2" "ISO2" "Unknown" sample).
  - vm_compute. reflexivity.
  - reflexivity.
Defined.

